(** * The Auth engine of the sso service (internal/services/auth/auth.go)

    A shallow embedding of the credential and session lifecycle engine.
    The engine keeps no state of its own: every operation is a sequence of
    calls to its collaborators (account, app and session stores, bcrypt, the
    token signer, the random source and the clock) followed by a return.
    An operation is therefore embedded as a finite program over a signature
    of collaborator calls; running it against an arbitrary implementation of
    the collaborators yields the returned tuple, the final state of the
    collaborators and the ordered record of the calls that were made.

    Left out of the model: the [context.Context] argument, which every method
    hands unchanged to every collaborator, and the [slog] logger, whose
    output never reaches a return value or a store. *)

From Stdlib Require Import ZArith NArith List String Ascii Bool Lia.
From Stdlib.Strings Require Import Byte.
Import ListNotations.
Local Open Scope string_scope.
Local Open Scope Z_scope.
Set Warnings "-register-all".

(** ** Go values *)

(** [[]byte]. *)
Definition bytes := list byte.

(** The conversion [[]byte(s)] of a Go string. *)
Definition bytes_of_string (s : string) : bytes := list_byte_of_string s.

(** [time.Duration]: a count of nanoseconds. *)
Definition Duration := Z.

(** [time.Time], as the number of nanoseconds elapsed since the Unix epoch.
    Only the wall clock is modelled, which is what the comparisons below
    use on instants read back from a store. *)
Record Time : Type := mkTime { unixNano : Z }.

Module time.

Definition Second : Duration := 1000000000.
Definition Hour : Duration := 3600 * Second.

(** [t.Before(u)]: strictly earlier. *)
Definition Before (t u : Time) : bool := unixNano t <? unixNano u.

(** [t.Add(d)]. *)
Definition Add (t : Time) (d : Duration) : Time := mkTime (unixNano t + d).

(** [t.Unix()]: whole seconds since the epoch, rounded towards minus
    infinity as Go's seconds/nanoseconds representation implies. *)
Definition Unix (t : Time) : Z := unixNano t / Second.

End time.

(** ** Errors

    A Go [error] value is either one made by [errors.New], or the result
    of [fmt.Errorf("%s: %w", op, err)].  [errors.New] returns a pointer, and
    Go compares such errors by that pointer: two calls give two different
    errors even when the texts are the same.  [ptr] stands for the pointer,
    [text] for the message.  The operand of [%w] is an interface value and
    may be nil: [fmt.Errorf] then still returns a non-nil error, whose text
    ends in [%!w(<nil>)] and which wraps nothing.  A value of Go type
    [error] that may be nil is an [option error]. *)
Inductive error : Type :=
| errors_New (ptr : N) (text : string)
| fmt_Errorf (op : string) (err : option error).

(** The comparison [err == target].  Errors made by [errors.New] are the
    same when their pointers are, whatever their texts.  Wrappers are
    compared by what they hold; the engine only ever tests against an
    [errors.New] value, which no wrapper equals. *)
Fixpoint error_eqb (x y : error) : bool :=
  match x, y with
  | errors_New a _, errors_New b _ => N.eqb a b
  | fmt_Errorf a xo, fmt_Errorf b yo =>
      String.eqb a b &&
      match xo, yo with
      | None, None => true
      | Some x', Some y' => error_eqb x' y'
      | _, _ => false
      end
  | _, _ => false
  end.

Module errors.

(** [errors.Unwrap]. *)
Definition Unwrap (err : error) : option error :=
  match err with
  | errors_New _ _ => None
  | fmt_Errorf _ inner => inner
  end.

(** The walk of [errors.Is] along the chain of a non-nil error. *)
Fixpoint Is_chain (err target : error) : bool :=
  error_eqb err target ||
  match err with
  | errors_New _ _ => false
  | fmt_Errorf _ None => false
  | fmt_Errorf _ (Some inner) => Is_chain inner target
  end.

(** [errors.Is(err, target)] for a non-nil target. *)
Definition Is (err : option error) (target : error) : bool :=
  match err with
  | None => false
  | Some e => Is_chain e target
  end.

End errors.

(** The package's own sentinel. *)
Definition ErrInvalidCredentials : error := errors_New 1 "invalid credentials".

Module storage.

(** Modelled from the spec: package [sso/internal/storage] is not among the
    sources; the engine only compares against its sentinel
    [ErrAccountNotFound], the [AccountNotFound] failure an account store
    reports for a lookup miss.  It is one [errors.New] value of the
    package; an error that merely has the same text is another error. *)
Definition ErrAccountNotFound : error := errors_New 2 "account not found".

End storage.

(** ** Domain records *)

Module models.

(** Modelled from the spec: package [sso/internal/domain/models] is not
    among the sources.  Roles are enumerated (standard, admin, ...). *)
Inductive AccountRole : Type :=
| STANDARD
| ADMIN
| OTHER_ROLE (code : Z).

(** Modelled from the spec: statuses are enumerated (ACTIVE, SUSPENDED,
    ...); the engine names [ACTIVE] only. *)
Inductive AccountStatus : Type :=
| ACTIVE
| SUSPENDED
| OTHER_STATUS (code : Z).

(** Modelled from the spec: the Account of the data model, with the field
    names the engine reads ([ID], [PassHash], [AppId]). *)
Record Account : Type := mkAccount {
  ID : Z;
  Email : string;
  PassHash : bytes;
  Role : AccountRole;
  Status : AccountStatus;
  AppId : Z
}.

(** Modelled from the spec: the App of the data model. *)
Record App : Type := mkApp {
  AppID : Z;
  Secret : string;
  TokenTTL : Duration;
  RefreshTokenTTL : Duration;
  RedirectURL : string
}.

(** Modelled from the spec: the Session of the data model, with the field
    names the engine reads ([Token], [ExpiresAt], [RefreshExpiresAt]). *)
Record Session : Type := mkSession {
  SessionID : string;
  AccountID : Z;
  UserAgent : string;
  IpAddress : string;
  Token : string;
  RefreshToken : string;
  ExpiresAt : Time;
  RefreshExpiresAt : Time
}.

End models.

(** ** Collaborator calls

    One constructor per method of the five interfaces declared in auth.go
    and per library function the engine calls; the index is the type of the
    Go result tuple.  [SessionSaver] and [SessionProvider] both declare
    [RevokeSession]; the two are kept apart. *)
Inductive call : Type -> Type :=
(* AccountSaver *)
| SaveAccount (email : string) (passHash : bytes) (role : models.AccountRole)
    (status : models.AccountStatus) (appId : Z) : call (Z * option error)
| UpdatePassword (accountId : Z) (newPassHash : bytes) : call (option error)
| UpdateStatus (accountId : Z) (status : models.AccountStatus) : call (option error)
(* AccountProvider *)
| AccountByEmail (email : string) : call (models.Account * option error)
| AccountById (accountId : Z) : call (models.Account * option error)
| IsAdmin (accountId : Z) : call (bool * option error)
(* AppProvider *)
| App (appId : Z) : call (models.App * option error)
(* SessionSaver *)
| SaveSession (accountId : Z) (userAgent ipAddress token refreshToken : string)
    (expiresAt : Time) : call (string * option error)
| SessionSaver_RevokeSession (token : string) : call (option error)
(* SessionProvider *)
| Sessions (accountId : Z) : call (list models.Session * option error)
| Session (token : string) : call (models.Session * option error)
| SessionByRefreshToken (refreshToken : string) : call (models.Session * option error)
| SessionProvider_RevokeSession (token : string) : call (option error)
(* golang.org/x/crypto/bcrypt *)
| bcrypt_GenerateFromPassword (password : bytes) (cost : Z) : call (bytes * option error)
| bcrypt_CompareHashAndPassword (hashedPassword password : bytes) : call (option error)
(* sso/internal/lib/jwt *)
| jwt_NewToken (user : models.Account) (app : models.App) (duration : Duration)
    : call (string * option error)
(* crypto/rand: the contents of the n-byte buffer after [rand.Read] *)
| rand_Read (n : nat) : call (bytes * option error)
(* time *)
| time_Now : call Time.

(** ** Programs over collaborator calls *)

Inductive prog (R : Type) : Type :=
| Ret (r : R)
| Do (X : Type) (c : call X) (k : X -> prog R).

Arguments Ret {R} r.
Arguments Do {R X} c k.

Fixpoint bind {A B : Type} (p : prog A) (f : A -> prog B) : prog B :=
  match p with
  | Ret a => f a
  | Do c k => Do c (fun x => bind (k x) f)
  end.

Declare Scope prog_scope.
Delimit Scope prog_scope with prog.
Notation "x <- c ;; k" := (Do c (fun x => k))
  (at level 61, c at next level, right associativity) : prog_scope.
Notation "' pat <- c ;; k" := (Do c (fun x => match x with pat => k end))
  (at level 61, pat pattern, c at next level, right associativity) : prog_scope.
Notation "' pat <<- p ;; k" := (bind p (fun x => match x with pat => k end))
  (at level 61, pat pattern, p at next level, right associativity) : prog_scope.

(** One recorded call: what was asked and what came back. *)
Inductive event : Type :=
| Ev (X : Type) (c : call X) (x : X).

Arguments Ev {X} c x.

(** An implementation of the collaborators over a state [S]. *)
Definition handler (S : Type) : Type := forall X : Type, call X -> S -> X * S.

(** Run a program: the returned value, the collaborators' final state and
    the calls in the order they were made. *)
Fixpoint run {S R : Type} (h : handler S) (p : prog R) (s : S) : R * S * list event :=
  match p with
  | Ret r => (r, s, [])
  | Do c k =>
      let '(x, s1) := h _ c s in
      let '(r, s2, t) := run h (k x) s1 in
      (r, s2, Ev c x :: t)
  end.

Definition result {S R : Type} (h : handler S) (p : prog R) (s : S) : R :=
  fst (fst (run h p s)).

Definition trace {S R : Type} (h : handler S) (p : prog R) (s : S) : list event :=
  snd (run h p s).

(** ** encoding/base64, URL alphabet with padding *)

Module base64.

Definition encodeURL : string :=
  "ABCDEFGHIJKLMNOPQRSTUVWXYZabcdefghijklmnopqrstuvwxyz0123456789-_".

Definition StdPadding : ascii := "="%char.

(** The character of a 6-bit value. *)
Definition digit (v : N) : ascii :=
  nth (N.to_nat (N.land v 63)) (list_ascii_of_string encodeURL) StdPadding.

(** Three source bytes as one 24-bit value. *)
Definition group (b0 b1 b2 : byte) : N :=
  N.lor (N.shiftl (Byte.to_N b0) 16)
        (N.lor (N.shiftl (Byte.to_N b1) 8) (Byte.to_N b2)).

(** [base64.URLEncoding.EncodeToString]: four characters per three bytes,
    the last group padded. *)
Fixpoint EncodeToString (src : bytes) : string :=
  match src with
  | [] => EmptyString
  | [b0] =>
      let v := group b0 x00 x00 in
      String (digit (N.shiftr v 18)) (String (digit (N.shiftr v 12))
        (String StdPadding (String StdPadding EmptyString)))
  | [b0; b1] =>
      let v := group b0 b1 x00 in
      String (digit (N.shiftr v 18)) (String (digit (N.shiftr v 12))
        (String (digit (N.shiftr v 6)) (String StdPadding EmptyString)))
  | b0 :: b1 :: b2 :: rest =>
      let v := group b0 b1 b2 in
      String (digit (N.shiftr v 18)) (String (digit (N.shiftr v 12))
        (String (digit (N.shiftr v 6)) (String (digit v)
          (EncodeToString rest))))
  end.

End base64.

Module bcrypt.
(** [bcrypt.DefaultCost]. *)
Definition DefaultCost : Z := 10.
End bcrypt.

(** ** The engine *)

(** The configuration fields of [Auth]; its five collaborator fields are the
    [call] signature. *)
Record Auth : Type := New {
  tokenTTL : Duration;
  refreshTokenTTL : Duration
}.

Local Open Scope prog_scope.

(** [if err != nil { return r }], then the rest of the body. *)
Notation "'iferr' e 'return' r ;; k" :=
  (match e with Some _ => Ret r | None => k end)
  (at level 61, e at level 9, r at next level, right associativity,
   only parsing) : prog_scope.

Definition generateRefreshToken : prog (string * option error) :=
  let tokenSize := 32%nat in
  '(token, err) <- rand_Read tokenSize ;;
  iferr err return ("", err) ;;
  Ret (base64.EncodeToString token, None).

Definition RegisterNewAccount (a : Auth) (email pass : string)
    (role : models.AccountRole) (appId : Z) : prog (Z * option error) :=
  let op := "Auth.RegisterNewAccount" in
  '(passHash, err) <- bcrypt_GenerateFromPassword (bytes_of_string pass) bcrypt.DefaultCost ;;
  iferr err return (0, Some (fmt_Errorf op err)) ;;
  let status := models.ACTIVE in
  '(id, err) <- SaveAccount email passHash role status appId ;;
  iferr err return (0, Some (fmt_Errorf op err)) ;;
  Ret (id, None).

Definition Login (a : Auth) (email password userAgent ipAddress : string)
    (appID : Z) : prog (string * string * option error) :=
  let op := "Auth.Login" in
  '(user, err) <- AccountByEmail email ;;
  match err with
  | Some _ =>
      if errors.Is err storage.ErrAccountNotFound
      then Ret ("", "", Some (fmt_Errorf op (Some ErrInvalidCredentials)))
      else Ret ("", "", Some (fmt_Errorf op err))
  | None =>
  err <- bcrypt_CompareHashAndPassword (models.PassHash user) (bytes_of_string password) ;;
  iferr err return ("", "", Some (fmt_Errorf op (Some ErrInvalidCredentials))) ;;
  '(app, err) <- App appID ;;
  iferr err return ("", "", Some (fmt_Errorf op err)) ;;
  '(token, err) <- jwt_NewToken user app (tokenTTL a) ;;
  iferr err return ("", "", Some (fmt_Errorf op err)) ;;
  '(refreshToken, err) <<- generateRefreshToken ;;
  iferr err return ("", "", Some (fmt_Errorf op err)) ;;
  now <- time_Now ;;
  let expiresAt := time.Add now (refreshTokenTTL a) in
  '(sessionID, err) <- SaveSession (models.ID user) userAgent ipAddress token refreshToken expiresAt ;;
  iferr err return ("", "", Some (fmt_Errorf op err)) ;;
  Ret (token, refreshToken, None)
  end.

(** The [for _, session := range sessions] loop of [Logout], followed by its
    final [return true, nil]. *)
Fixpoint Logout_range (op : string) (sessions : list models.Session)
    : prog (bool * option error) :=
  match sessions with
  | [] => Ret (true, None)
  | session :: rest =>
      err <- SessionSaver_RevokeSession (models.Token session) ;;
      iferr err return (false, Some (fmt_Errorf op err)) ;;
      Logout_range op rest
  end.

Definition Logout (a : Auth) (accountID : Z) : prog (bool * option error) :=
  let op := "Auth.Logout" in
  '(sessions, err) <- Sessions accountID ;;
  iferr err return (false, Some (fmt_Errorf op err)) ;;
  Logout_range op sessions.

Definition ChangePassword (a : Auth) (accountID : Z) (oldPassword newPassword : string)
    : prog (bool * option error) :=
  let op := "Auth.ChangePassword" in
  '(account, err) <- AccountById accountID ;;
  iferr err return (false, Some (fmt_Errorf op err)) ;;
  err <- bcrypt_CompareHashAndPassword (models.PassHash account) (bytes_of_string oldPassword) ;;
  iferr err return (false, Some (fmt_Errorf op (Some ErrInvalidCredentials))) ;;
  '(newPassHash, err) <- bcrypt_GenerateFromPassword (bytes_of_string newPassword) bcrypt.DefaultCost ;;
  iferr err return (false, Some (fmt_Errorf op err)) ;;
  err <- UpdatePassword accountID newPassHash ;;
  iferr err return (false, Some (fmt_Errorf op err)) ;;
  Ret (true, None).

Definition ChangeStatus (a : Auth) (accountID : Z) (status : models.AccountStatus)
    : prog (models.AccountStatus * option error) :=
  let op := "Auth.ChangeStatus" in
  err <- UpdateStatus accountID status ;;
  iferr err return (status, Some (fmt_Errorf op err)) ;;
  Ret (status, None).

Definition GetActiveAccountSessions (a : Auth) (accountID : Z)
    : prog (list models.Session * option error) :=
  let op := "Auth.GetActiveAccountSessions" in
  '(sessions, err) <- Sessions accountID ;;
  iferr err return ([], Some (fmt_Errorf op err)) ;;
  Ret (sessions, None).

(** In the expiry branch the variable [err] is the one assigned by
    [SessionByRefreshToken], which is nil there; it is wrapped as it is. *)
Definition RefreshAccountSession (a : Auth) (accountID : Z)
    (refreshToken userAgent ipAddress : string)
    : prog (string * string * Z * option error) :=
  let op := "Auth.RefreshAccountSession" in
  '(account, err) <- AccountById accountID ;;
  iferr err return ("", "", 0, Some (fmt_Errorf op err)) ;;
  '(app, err) <- App (models.AppId account) ;;
  iferr err return ("", "", 0, Some (fmt_Errorf op err)) ;;
  '(session, err) <- SessionByRefreshToken refreshToken ;;
  iferr err return ("", "", 0, Some (fmt_Errorf op err)) ;;
  now <- time_Now ;;
  if time.Before (models.RefreshExpiresAt session) now
  then Ret ("", "", 0, Some (fmt_Errorf op err))
  else
  '(newToken, err) <- jwt_NewToken account app (tokenTTL a) ;;
  iferr err return ("", "", 0, Some (fmt_Errorf op err)) ;;
  '(newRefreshToken, err) <<- generateRefreshToken ;;
  iferr err return ("", "", 0, Some (fmt_Errorf op err)) ;;
  now <- time_Now ;;
  let expiresAt := time.Add now (refreshTokenTTL a) in
  '(sessionID, err) <- SaveSession accountID userAgent ipAddress newToken newRefreshToken expiresAt ;;
  iferr err return ("", "", 0, Some (fmt_Errorf op err)) ;;
  Ret (newToken, newRefreshToken, time.Unix expiresAt, None).

Definition ValidateAccountSession (a : Auth) (token : string)
    : prog (bool * Z * option error) :=
  let op := "Auth.ValidateAccountSession" in
  '(session, err) <- Session token ;;
  iferr err return (false, 0, Some (fmt_Errorf op err)) ;;
  now <- time_Now ;;
  if time.Before (models.ExpiresAt session) now
  then Ret (false, time.Unix (models.ExpiresAt session), None)
  else Ret (true, time.Unix (models.ExpiresAt session), None).

Definition RevokeAccountSession (a : Auth) (token : string) : prog (bool * option error) :=
  let op := "Auth.RevokeAccountSession" in
  err <- SessionProvider_RevokeSession token ;;
  iferr err return (false, Some (fmt_Errorf op err)) ;;
  Ret (true, None).

Local Close Scope prog_scope.

(** ** An in-memory double of the collaborators

    A small deterministic implementation of every call, used to run the
    engine on concrete inputs: list-backed stores, a clock that advances by
    one nanosecond per reading, a bcrypt stand-in that refuses passwords
    longer than 72 bytes as the library does, a signer that refuses an app
    without a secret, a list of tokens whose revocation the session store
    refuses, and an optional outage with which every account-store call
    fails. *)
Module Double.

Record World : Type := mkWorld {
  accounts : list models.Account;
  apps : list models.App;
  sessions : list models.Session;
  clock : Time;
  stuck : list string;
  outage : option error
}.

Definition ErrAccountExists : error := errors_New 101 "account already exists".
Definition ErrAppNotFound : error := errors_New 102 "app not found".
Definition ErrSessionNotFound : error := errors_New 103 "session not found".
Definition ErrRevokeRefused : error := errors_New 104 "database is locked".
Definition ErrPasswordTooLong : error :=
  errors_New 105 "bcrypt: password length exceeds 72 bytes".
Definition ErrMismatchedHashAndPassword : error :=
  errors_New 106
    "crypto/bcrypt: hashedPassword is not the hash of the given password".
Definition ErrNoSecret : error := errors_New 107 "key is of invalid type".

Definition noAccount : models.Account :=
  models.mkAccount 0 "" [] models.STANDARD models.ACTIVE 0.
Definition noApp : models.App := models.mkApp 0 "" 0 0 "".
Definition noSession : models.Session :=
  models.mkSession "" 0 "" "" "" "" (mkTime 0) (mkTime 0).

Fixpoint bytes_eqb (x y : bytes) : bool :=
  match x, y with
  | [], [] => true
  | a :: x', b :: y' => Byte.eqb a b && bytes_eqb x' y'
  | _, _ => false
  end.

Definition hash (password : bytes) : bytes :=
  (bytes_of_string "$2a$10$" ++ password)%list.

Definition setPassHash (h : bytes) (acc : models.Account) : models.Account :=
  models.mkAccount (models.ID acc) (models.Email acc) h (models.Role acc)
    (models.Status acc) (models.AppId acc).

Definition setStatus (st : models.AccountStatus) (acc : models.Account) : models.Account :=
  models.mkAccount (models.ID acc) (models.Email acc) (models.PassHash acc)
    (models.Role acc) st (models.AppId acc).

Definition withAccounts (w : World) (l : list models.Account) : World :=
  mkWorld l (apps w) (sessions w) (clock w) (stuck w) (outage w).
Definition withSessions (w : World) (l : list models.Session) : World :=
  mkWorld (accounts w) (apps w) l (clock w) (stuck w) (outage w).

Definition hasId (id : Z) (acc : models.Account) : bool := models.ID acc =? id.
Definition hasEmail (email : string) (acc : models.Account) : bool :=
  String.eqb (models.Email acc) email.
Definition hasToken (token : string) (x : models.Session) : bool :=
  String.eqb (models.Token x) token.

Definition lookup {A : Type} (p : A -> bool) (l : list A) (none : A) (miss : error)
    : A * option error :=
  match find p l with
  | Some x => (x, None)
  | None => (none, Some miss)
  end.

Definition update (id : Z) (f : models.Account -> models.Account) (w : World)
    : option error * World :=
  match outage w with
  | Some e => (Some e, w)
  | None =>
      if existsb (hasId id) (accounts w)
      then (None, withAccounts w
                    (map (fun acc => if hasId id acc then f acc else acc) (accounts w)))
      else (Some storage.ErrAccountNotFound, w)
  end.

Definition account (p : models.Account -> bool) (w : World)
    : models.Account * option error :=
  match outage w with
  | Some e => (noAccount, Some e)
  | None => lookup p (accounts w) noAccount storage.ErrAccountNotFound
  end.

Definition revoke (token : string) (w : World) : option error * World :=
  if existsb (String.eqb token) (stuck w)
  then (Some ErrRevokeRefused, w)
  else (None, withSessions w (filter (fun x => negb (hasToken token x)) (sessions w))).

Definition serve : handler World :=
  fun X c =>
    match c in call X return World -> X * World with
    | SaveAccount email passHash role status appId => fun w =>
        match outage w with
        | Some e => ((0, Some e), w)
        | None =>
            if existsb (hasEmail email) (accounts w)
            then ((0, Some ErrAccountExists), w)
            else
              let id := Z.of_nat (List.length (accounts w)) + 1 in
              ((id, None),
               withAccounts w
                 (accounts w ++
                  [models.mkAccount id email passHash role status appId])%list)
        end
    | UpdatePassword accountId newPassHash => update accountId (setPassHash newPassHash)
    | UpdateStatus accountId status => update accountId (setStatus status)
    | AccountByEmail email => fun w => (account (hasEmail email) w, w)
    | AccountById accountId => fun w => (account (hasId accountId) w, w)
    | IsAdmin accountId => fun w =>
        match account (hasId accountId) w with
        | (acc, None) =>
            ((match models.Role acc with models.ADMIN => true | _ => false end, None), w)
        | (_, Some e) => ((false, Some e), w)
        end
    | App appId => fun w =>
        (lookup (fun x => models.AppID x =? appId) (apps w) noApp ErrAppNotFound, w)
    | SaveSession accountId userAgent ipAddress token refreshToken expiresAt => fun w =>
        let sid := String "s" (base64.EncodeToString (bytes_of_string token)) in
        ((sid, None),
         withSessions w
           (sessions w ++ [models.mkSession sid accountId userAgent ipAddress token
                             refreshToken expiresAt expiresAt])%list)
    | SessionSaver_RevokeSession token => revoke token
    | Sessions accountId => fun w =>
        ((filter (fun x => models.AccountID x =? accountId) (sessions w), None), w)
    | Session token => fun w =>
        (lookup (hasToken token) (sessions w) noSession ErrSessionNotFound, w)
    | SessionByRefreshToken refreshToken => fun w =>
        (lookup (fun x => String.eqb (models.RefreshToken x) refreshToken)
           (sessions w) noSession ErrSessionNotFound, w)
    | SessionProvider_RevokeSession token => revoke token
    | bcrypt_GenerateFromPassword password cost => fun w =>
        if (72 <? List.length password)%nat
        then (([], Some ErrPasswordTooLong), w)
        else ((hash password, None), w)
    | bcrypt_CompareHashAndPassword hashedPassword password => fun w =>
        (if bytes_eqb hashedPassword (hash password)
         then None else Some ErrMismatchedHashAndPassword, w)
    | jwt_NewToken user app duration => fun w =>
        if String.eqb (models.Secret app) ""
        then (("", Some ErrNoSecret), w)
        else ((String.append "jwt:" (models.Email user), None), w)
    | rand_Read n => fun w => ((repeat x2a n, None), w)
    | time_Now => fun w =>
        (clock w,
         mkWorld (accounts w) (apps w) (sessions w)
           (mkTime (unixNano (clock w) + 1)) (stuck w) (outage w))
    end.

End Double.

(** ** Classifying recorded calls *)

Definition isSessionStoreCall (e : event) : bool :=
  match e with
  | Ev c _ =>
      match c with
      | SaveSession _ _ _ _ _ _ | SessionSaver_RevokeSession _ | Sessions _
      | Session _ | SessionByRefreshToken _ | SessionProvider_RevokeSession _ => true
      | _ => false
      end
  end.

Definition isSaveAccount (e : event) : bool :=
  match e with
  | Ev c _ => match c with SaveAccount _ _ _ _ _ => true | _ => false end
  end.

Definition isSaveSession (e : event) : bool :=
  match e with
  | Ev c _ => match c with SaveSession _ _ _ _ _ _ => true | _ => false end
  end.

Definition isRevokeSession (e : event) : bool :=
  match e with
  | Ev c _ =>
      match c with
      | SessionSaver_RevokeSession _ | SessionProvider_RevokeSession _ => true
      | _ => false
      end
  end.

Definition isUpdatePassword (e : event) : bool :=
  match e with
  | Ev c _ => match c with UpdatePassword _ _ => true | _ => false end
  end.

Definition isTimeNow (e : event) : bool :=
  match e with
  | Ev c _ => match c with time_Now => true | _ => false end
  end.

(** A revocation the session store accepted, and one it refused. *)
Definition revoked (x : models.Session) : event :=
  Ev (SessionSaver_RevokeSession (models.Token x)) None.

Definition refused (x : models.Session) (e : error) : event :=
  Ev (SessionSaver_RevokeSession (models.Token x)) (Some e).

(** ** Worlds for concrete runs *)

Module Fixture.

Definition auth : Auth := New time.Hour (24 * time.Hour).

Definition app1 : models.App :=
  models.mkApp 1 "secret" time.Hour (24 * time.Hour) "https://x.com/cb".

Definition alice : models.Account :=
  models.mkAccount 1 "a@x.com" (Double.hash (bytes_of_string "pw123"))
    models.STANDARD models.ACTIVE 1.

(** A session of account 1 whose two deadlines are [exp] and [rexp]
    seconds after the epoch. *)
Definition session (n : string) (exp rexp : Z) : models.Session :=
  models.mkSession (String.append "sid" n) 1 "ua" "10.0.0.1"
    (String.append "tok" n) (String.append "ref" n)
    (mkTime (exp * time.Second)) (mkTime (rexp * time.Second)).

(** Account 1 with three sessions, the clock at [now] nanoseconds. *)
Definition world (now : Z) (stuck : list string) : Double.World :=
  Double.mkWorld [alice] [app1]
    [session "1" 3600 86400; session "2" 7200 90000; session "3" 9000 93600]
    (mkTime now) stuck None.

(** No account yet. *)
Definition empty : Double.World :=
  Double.mkWorld [] [app1] [] (mkTime 0) [] None.

(** The same account behind an account store that is down. *)
Definition ErrDown : error := errors_New 201 "sql: database is closed".

Definition down : Double.World :=
  Double.mkWorld [alice] [app1] [] (mkTime 0) [] (Some ErrDown).

(** A passphrase of 73 bytes, one more than bcrypt accepts. *)
Definition passphrase : string :=
  "correct-horse-battery-staple-correct-horse-battery-staple-correct-horse-b".

End Fixture.

(** ** Reading errors and recorded answers *)

(** The text [err.Error()] of a non-nil error. *)
Fixpoint Error (e : error) : string :=
  match e with
  | errors_New _ text => text
  | fmt_Errorf op None => String.append op ": %!w(<nil>)"
  | fmt_Errorf op (Some inner) => String.append op (String.append ": " (Error inner))
  end.

(** [err == nil]. *)
Definition succeeded (err : option error) : bool :=
  match err with
  | None => true
  | Some _ => false
  end.

(** A nil error, or one built by [fmt.Errorf] under the operation name
    [op]. *)
Definition namedBy (op : string) (err : option error) : bool :=
  match err with
  | None => true
  | Some (fmt_Errorf op' _) => String.eqb op op'
  | Some (errors_New _ _) => false
  end.

(** A SaveSession call the session store accepted. *)
Definition savedSession (e : event) : bool :=
  match e with
  | Ev c x =>
      match c in call X return X -> bool with
      | SaveSession _ _ _ _ _ _ => fun x => succeeded (snd x)
      | _ => fun _ => false
      end x
  end.

(** A SaveAccount call the account store accepted. *)
Definition savedAccount (e : event) : bool :=
  match e with
  | Ev c x =>
      match c in call X return X -> bool with
      | SaveAccount _ _ _ _ _ => fun x => succeeded (snd x)
      | _ => fun _ => false
      end x
  end.

(** An UpdatePassword call the account store accepted. *)
Definition updatedPassword (e : event) : bool :=
  match e with
  | Ev c x =>
      match c in call X return X -> bool with
      | UpdatePassword _ _ => fun x => succeeded x
      | _ => fun _ => false
      end x
  end.

(** A call to one of the writing methods of the stores ([AccountSaver],
    [SessionSaver] and the provider's RevokeSession). *)
Definition isStoreWrite (e : event) : bool :=
  match e with
  | Ev c _ =>
      match c with
      | SaveAccount _ _ _ _ _ | UpdatePassword _ _ | UpdateStatus _ _
      | SaveSession _ _ _ _ _ _ | SessionSaver_RevokeSession _
      | SessionProvider_RevokeSession _ => true
      | _ => false
      end
  end.

(** Position of a character in a list, the length of the list when it is
    absent.  On the base64 alphabet it inverts [base64.digit]. *)
Fixpoint indexOf (c : ascii) (l : list ascii) : nat :=
  match l with
  | [] => 0%nat
  | x :: l' => if Ascii.eqb c x then 0%nat else S (indexOf c l')
  end.

(** Membership in the 64-character URL alphabet. *)
Definition urlSafe (c : ascii) : bool :=
  existsb (Ascii.eqb c) (list_ascii_of_string base64.encodeURL).

(** ** A second account *)

Module Scenario.

Definition bob : models.Account :=
  models.mkAccount 2 "b@x.com" (Double.hash (bytes_of_string "hunter2"))
    models.STANDARD models.ACTIVE 1.

(** A session owned by account 2, refreshable until 86400 s. *)
Definition bobs : models.Session :=
  models.mkSession "sidB" 2 "ua" "10.0.0.2" "tokB" "refB"
    (mkTime (3600 * time.Second)) (mkTime (86400 * time.Second)).

(** Accounts 1 and 2; the only session belongs to account 2. *)
Definition shared : Double.World :=
  Double.mkWorld [Fixture.alice; bob] [Fixture.app1] [bobs] (mkTime 0) [] None.

(** An account store that is down and says so with an error of its own
    making whose text happens to be that of [storage.ErrAccountNotFound]. *)
Definition lookalike : error := errors_New 900 "account not found".

Definition misleading : Double.World :=
  Double.mkWorld [Fixture.alice] [Fixture.app1] [] (mkTime 0) [] (Some lookalike).

(** A suspended account, alone in the store. *)
Definition carol : models.Account :=
  models.mkAccount 3 "c@x.com" (Double.hash (bytes_of_string "s3cret"))
    models.STANDARD models.SUSPENDED 1.

Definition suspended : Double.World :=
  Double.mkWorld [carol] [Fixture.app1] [] (mkTime 0) [] None.

End Scenario.

(** ** A double whose random source moves

    The in-memory double with a counter beside it: every [rand.Read] fills
    the buffer with the counter's low byte and advances the counter; every
    other call is served by [Double.serve]. *)
Module Dice.

Definition face (seed : N) : byte :=
  match Byte.of_N (seed mod 256) with
  | Some b => b
  | None => x00
  end.

Definition serve : handler (N * Double.World) :=
  fun X c st =>
    match c in call X return X * Double.World -> X * (N * Double.World) with
    | rand_Read n => fun _ => ((repeat (face (fst st)) n, None), (fst st + 1, snd st)%N)
    | _ => fun served => (fst served, (fst st, snd served))
    end (Double.serve X c (snd st)).

End Dice.

(** ** Configuration loading (package config)

    [MustLoad] and [fetchConfigPath] talk to the command line, the
    environment and the file system and stop the process by panicking.
    They are embedded as programs over those four calls whose outcome is a
    returned value or the panic value. *)
Module config.

Record GRPCConfig : Type := mkGRPCConfig {
  Port : Z;
  Timeout : Duration
}.

Record Config : Type := mkConfig {
  Env : string;
  StoragePath : string;
  GRPC : GRPCConfig;
  MigrationsPath : string;
  TokenTTL : Duration;
  RefreshTTL : Duration
}.

(** The calls of [fetchConfigPath] and [MustLoad]:
    - [flag_Parse]: the value of [res] after
      [flag.StringVar(&res, "domain", "", ...)] and [flag.Parse()];
    - [os_Getenv key];
    - [os_Stat name]: whether [os.IsNotExist] holds of the error [os.Stat]
      returned, the only use made of it;
    - [cleanenv_ReadConfig path]: the filled [cfg] and the error. *)
Inductive ask : Type -> Type :=
| flag_Parse : ask string
| os_Getenv (key : string) : ask string
| os_Stat (name : string) : ask bool
| cleanenv_ReadConfig (path : string) : ask (Config * option error).

Inductive proc (R : Type) : Type :=
| Return (r : R)
| Panic (v : string)
| Ask (X : Type) (c : ask X) (k : X -> proc R).

Arguments Return {R} r.
Arguments Panic {R} v.
Arguments Ask {R X} c k.

Fixpoint andThen {A B : Type} (p : proc A) (f : A -> proc B) : proc B :=
  match p with
  | Return a => f a
  | Panic v => Panic v
  | Ask c k => Ask c (fun x => andThen (k x) f)
  end.

Inductive outcome (R : Type) : Type :=
| Returned (r : R)
| Panicked (v : string).

Arguments Returned {R} r.
Arguments Panicked {R} v.

Inductive asked : Type :=
| Asked (X : Type) (c : ask X) (x : X).

Arguments Asked {X} c x.

Definition system (S : Type) : Type := forall X : Type, ask X -> S -> X * S.

Fixpoint exec {S R : Type} (h : system S) (p : proc R) (s : S)
    : outcome R * S * list asked :=
  match p with
  | Return r => (Returned r, s, [])
  | Panic v => (Panicked v, s, [])
  | Ask c k =>
      let '(x, s1) := h _ c s in
      let '(r, s2, t) := exec h (k x) s1 in
      (r, s2, Asked c x :: t)
  end.

Definition fetchConfigPath : proc string :=
  Ask flag_Parse (fun res =>
  if String.eqb res ""
  then Ask (os_Getenv "CONFIG_PATH") (fun res => Return res)
  else Return res).

Definition MustLoad : proc Config :=
  andThen fetchConfigPath (fun configPath =>
  if String.eqb configPath ""
  then Panic "domain path is empty"
  else
  Ask (os_Stat configPath) (fun notExist =>
  if notExist
  then Panic (String.append "domain file does not exist: " configPath)
  else
  Ask (cleanenv_ReadConfig configPath) (fun '(cfg, err) =>
  match err with
  | Some e => Panic (String.append "domain path is empty: " (Error e))
  | None => Return cfg
  end))).

Definition isGetenv (e : asked) : bool :=
  match e with
  | Asked c _ => match c with os_Getenv _ => true | _ => false end
  end.

(** A call that touches the file system. *)
Definition isFileAccess (e : asked) : bool :=
  match e with
  | Asked c _ =>
      match c with
      | os_Stat _ | cleanenv_ReadConfig _ => true
      | _ => false
      end
  end.

(** A machine for concrete runs: the flag value, the variable CONFIG_PATH
    and the files present with what reading them gives. *)
Record Machine : Type := mkMachine {
  domainFlag : string;
  CONFIG_PATH : string;
  files : list (string * (Config * option error))
}.

Definition noConfig : Config := mkConfig "" "" (mkGRPCConfig 0 0) "" 0 0.

Definition ErrMalformed : error := errors_New 301 "config file parsing error: EOF".

Definition machine : system Machine :=
  fun X c =>
    match c in ask X return Machine -> X * Machine with
    | flag_Parse => fun m => (domainFlag m, m)
    | os_Getenv key => fun m =>
        (if String.eqb key "CONFIG_PATH" then CONFIG_PATH m else "", m)
    | os_Stat name => fun m =>
        (negb (existsb (fun f => String.eqb (fst f) name) (files m)), m)
    | cleanenv_ReadConfig path => fun m =>
        (match find (fun f => String.eqb (fst f) path) (files m) with
         | Some f => snd f
         | None => (noConfig, Some (errors_New 302 "open: no such file or directory"))
         end, m)
    end.

Definition local : Config :=
  mkConfig "local" "./storage/sso.db" (mkGRPCConfig 44044 (10 * time.Second))
    "" time.Hour (24 * time.Hour).

End config.

(** ** General facts about running programs *)

(** Closes a goal between closed terms by evaluating both sides. *)
Ltac by_evaluation := vm_compute; reflexivity.

(** Case analysis on the answer of the next collaborator call of a run
    against the handler [h]: the state after it, and the nil or non-nil
    error of the answer. *)
Ltac next_answer h :=
  match goal with
  | |- context [h ?X ?c ?s] =>
      let x := fresh "x" in
      let s' := fresh "s" in
      destruct (h X c s) as [x s'] eqn:?;
      lazymatch type of x with
      | (_ * option error)%type => destruct x as [? [? |]]
      | option error => destruct x as [? |]
      | _ => idtac
      end;
      simpl
  end.

(** Uses a known answer of the next collaborator call. *)
Ltac answered H := simpl; rewrite H; simpl.

Lemma run_bind {S A B : Type} (h : handler S) (p : prog A) (f : A -> prog B) (s : S) :
  run h (bind p f) s =
  let '(a, s1, t1) := run h p s in
  let '(b, s2, t2) := run h (f a) s1 in
  (b, s2, (t1 ++ t2)%list).
Proof.
  revert s. induction p as [r | X c k IH]; intros s; simpl.
  - destruct (run h (f r) s) as [[b s2] t2]. reflexivity.
  - destruct (h X c s) as [x s1]. rewrite IH.
    destruct (run h (k x) s1) as [[a s2] t1].
    destruct (run h (f a) s2) as [[b s3] t2]. reflexivity.
Qed.

Lemma error_eqb_refl (e : error) : error_eqb e e = true.
Proof.
  revert e. fix IH 1. intros [ptr text | op [inner |]]; simpl.
  - apply N.eqb_refl.
  - rewrite String.eqb_refl, IH. reflexivity.
  - rewrite String.eqb_refl. reflexivity.
Qed.

(** An error made by [fmt.Errorf] with [%w] answers [errors.Is] for whatever
    the wrapped error answers it. *)
Lemma Is_wrapped (op : string) (e target : error) :
  errors.Is_chain e target = true ->
  errors.Is (Some (fmt_Errorf op (Some e))) target = true.
Proof.
  intros H. simpl. rewrite H. apply orb_true_r.
Qed.

Lemma Is_wrapped_self (op : string) (e : error) :
  errors.Is (Some (fmt_Errorf op (Some e))) e = true.
Proof.
  apply Is_wrapped.
  destruct e as [ptr text | op' [inner |]]; cbn [errors.Is_chain];
    rewrite error_eqb_refl; reflexivity.
Qed.

(** An error made by [fmt.Errorf] from a nil operand matches no sentinel. *)
Lemma Is_wrapped_nil (op : string) (ptr : N) (text : string) :
  errors.Is (Some (fmt_Errorf op None)) (errors_New ptr text) = false.
Proof. reflexivity. Qed.

(** ** ChangeStatus *)

(** C9: whatever the account store answers, the first value ChangeStatus
    returns is the status it was given: on store success the result is
    (status, nil), on store failure it is (status, wrapped error), so the
    returned status alone does not tell the two apart. *)
Theorem ChangeStatus_returns_argument {S : Type} (h : handler S) (s : S)
    (a : Auth) (accountID : Z) (status : models.AccountStatus) :
  fst (result h (ChangeStatus a accountID status) s) = status /\
  (result h (ChangeStatus a accountID status) s = (status, None) \/
   exists e : error,
     fst (h _ (UpdateStatus accountID status) s) = Some e /\
     result h (ChangeStatus a accountID status) s =
       (status, Some (fmt_Errorf "Auth.ChangeStatus" (Some e)))).
Proof.
  unfold result, ChangeStatus. simpl.
  destruct (h _ (UpdateStatus accountID status) s) as [[e |] s1]; simpl.
  - split; [reflexivity | right]. exists e. split; reflexivity.
  - split; [reflexivity | left; reflexivity].
Qed.

(** ** GetActiveAccountSessions *)

(** C8: when the session store answers the listing for the account with a
    list, GetActiveAccountSessions returns that very list, same elements in
    the same order, and the listing is the only call it makes: the clock is
    never read, so no session is dropped for being past its expiresAt. *)
Theorem GetActiveAccountSessions_read_through {S : Type} (h : handler S) (s s1 : S)
    (a : Auth) (accountID : Z) (sessions : list models.Session) :
  h _ (Sessions accountID) s = ((sessions, None), s1) ->
  run h (GetActiveAccountSessions a accountID) s =
    ((sessions, None), s1, [Ev (Sessions accountID) (sessions, None)]).
Proof.
  intros H. unfold GetActiveAccountSessions. simpl. rewrite H. reflexivity.
Qed.

(** Account 1 holds three sessions; read one second after the first of them
    expired, all three come back, the expired one first. *)
Lemma GetActiveAccountSessions_read_through_witness :
  time.Before (models.ExpiresAt (Fixture.session "1" 3600 86400))
    (Double.clock (Fixture.world (3601 * time.Second) [])) = true /\
  run Double.serve (GetActiveAccountSessions Fixture.auth 1)
    (Fixture.world (3601 * time.Second) []) =
    (([Fixture.session "1" 3600 86400; Fixture.session "2" 7200 90000;
       Fixture.session "3" 9000 93600], None),
     Fixture.world (3601 * time.Second) [],
     [Ev (Sessions 1)
        ([Fixture.session "1" 3600 86400; Fixture.session "2" 7200 90000;
          Fixture.session "3" 9000 93600], None)]).
Proof.
  split; [by_evaluation |].
  apply (GetActiveAccountSessions_read_through Double.serve). by_evaluation.
Defined.

(** ** ValidateAccountSession *)

(** C2, as the code has it: a lookup the session store fails makes the call
    fail with the store's error wrapped; for a session that is found, the
    result is (false, expiresAt) when expiresAt is strictly before the clock
    reading, and (true, expiresAt) when the clock reading is at or before
    expiresAt, the instant now = expiresAt included. *)
Theorem ValidateAccountSession_spec {S : Type} (h : handler S) (s : S)
    (a : Auth) (token : string) :
  (forall session e s1,
      h _ (Session token) s = ((session, Some e), s1) ->
      result h (ValidateAccountSession a token) s =
        (false, 0, Some (fmt_Errorf "Auth.ValidateAccountSession" (Some e)))) /\
  (forall session s1 now s2,
      h _ (Session token) s = ((session, None), s1) ->
      h _ time_Now s1 = (now, s2) ->
      (unixNano (models.ExpiresAt session) < unixNano now ->
       result h (ValidateAccountSession a token) s =
         (false, time.Unix (models.ExpiresAt session), None)) /\
      (unixNano now <= unixNano (models.ExpiresAt session) ->
       result h (ValidateAccountSession a token) s =
         (true, time.Unix (models.ExpiresAt session), None))).
Proof.
  unfold result, ValidateAccountSession. split.
  - intros session e s1 H. simpl. rewrite H. reflexivity.
  - intros session s1 now s2 H Hnow. simpl. rewrite H. simpl. rewrite Hnow.
    unfold time.Before. split; intros Hcmp.
    + apply Z.ltb_lt in Hcmp. rewrite Hcmp. reflexivity.
    + apply Z.ltb_ge in Hcmp. rewrite Hcmp. reflexivity.
Qed.

(** An unknown token is an error; the session expiring at 3600 s is valid
    one nanosecond before, still valid at 3600 s sharp, and expired one
    nanosecond after. *)
Lemma ValidateAccountSession_spec_witness :
  result Double.serve (ValidateAccountSession Fixture.auth "nope") (Fixture.world 0 []) =
    (false, 0, Some (fmt_Errorf "Auth.ValidateAccountSession"
                       (Some Double.ErrSessionNotFound))) /\
  result Double.serve (ValidateAccountSession Fixture.auth "tok1")
    (Fixture.world (3600 * time.Second - 1) []) = (true, 3600, None) /\
  result Double.serve (ValidateAccountSession Fixture.auth "tok1")
    (Fixture.world (3600 * time.Second) []) = (true, 3600, None) /\
  result Double.serve (ValidateAccountSession Fixture.auth "tok1")
    (Fixture.world (3600 * time.Second + 1) []) = (false, 3600, None).
Proof.
  pose (x := Fixture.session "1" 3600 86400).
  split; [| split; [| split]].
  - apply (proj1 (ValidateAccountSession_spec Double.serve (Fixture.world 0 [])
                    Fixture.auth "nope")
             Double.noSession Double.ErrSessionNotFound (Fixture.world 0 [])).
    by_evaluation.
  - pose (w := Fixture.world (3600 * time.Second - 1) []).
    apply (proj2 (proj2 (ValidateAccountSession_spec Double.serve w Fixture.auth "tok1")
                    x w (Double.clock w) (snd (Double.serve _ time_Now w))
                    ltac:(by_evaluation) ltac:(by_evaluation))).
    vm_compute. discriminate.
  - pose (w := Fixture.world (3600 * time.Second) []).
    apply (proj2 (proj2 (ValidateAccountSession_spec Double.serve w Fixture.auth "tok1")
                    x w (Double.clock w) (snd (Double.serve _ time_Now w))
                    ltac:(by_evaluation) ltac:(by_evaluation))).
    vm_compute. discriminate.
  - pose (w := Fixture.world (3600 * time.Second + 1) []).
    apply (proj1 (proj2 (ValidateAccountSession_spec Double.serve w Fixture.auth "tok1")
                    x w (Double.clock w) (snd (Double.serve _ time_Now w))
                    ltac:(by_evaluation) ltac:(by_evaluation))).
    by_evaluation.
Defined.

(** C2 as stated fails at the boundary: with the clock reading exactly the
    session's expiresAt the call answers (true, expiresAt), not
    (false, expiresAt). *)
Lemma ValidateAccountSession_at_deadline :
  fst (Double.serve _ (Session "tok1") (Fixture.world (3600 * time.Second) [])) =
    (Fixture.session "1" 3600 86400, None) /\
  fst (Double.serve _ time_Now (Fixture.world (3600 * time.Second) [])) =
    models.ExpiresAt (Fixture.session "1" 3600 86400) /\
  result Double.serve (ValidateAccountSession Fixture.auth "tok1")
    (Fixture.world (3600 * time.Second) []) = (true, 3600, None) /\
  result Double.serve (ValidateAccountSession Fixture.auth "tok1")
    (Fixture.world (3600 * time.Second) []) <> (false, 3600, None).
Proof.
  split; [by_evaluation | split; [by_evaluation | split; [by_evaluation |]]].
  vm_compute. discriminate.
Qed.

(** ** Logout *)

(** The revocation loop, run from any state: either every session of the
    list was revoked and the loop answers success, or the list splits at the
    first refused session, the ones before it were revoked, the refusal is
    the last call made, and the loop answers the wrapped refusal. *)
Lemma Logout_range_spec {S : Type} (h : handler S) (op : string)
    (sessions : list models.Session) (s : S) :
  (result h (Logout_range op sessions) s = (true, None) /\
   trace h (Logout_range op sessions) s = map revoked sessions) \/
  (exists done x rest e,
      sessions = (done ++ x :: rest)%list /\
      result h (Logout_range op sessions) s = (false, Some (fmt_Errorf op (Some e))) /\
      trace h (Logout_range op sessions) s = (map revoked done ++ [refused x e])%list).
Proof.
  unfold result, trace. revert s.
  induction sessions as [| x rest IH]; intros s; simpl.
  - left. split; reflexivity.
  - destruct (h _ (SessionSaver_RevokeSession (models.Token x)) s) as [[e |] s1]; simpl.
    + right. exists [], x, rest, e. repeat split.
    + destruct (IH s1) as [[Hr Ht] | (done & y & rest' & e & Hsplit & Hr & Ht)];
        destruct (run h (Logout_range op rest) s1) as [[r s2] t]; simpl in *.
      * left. subst. split; reflexivity.
      * right. exists (x :: done), y, rest', e. subst. repeat split.
Qed.

(** C3: once the session store has listed the account's sessions, the calls
    Logout makes after the listing are revocations by token in list order.
    Either all of them were accepted, every session of the list was revoked
    and Logout answers (true, nil); or the list splits as done ++ x :: rest
    at the first refused session x, the sessions of done stay revoked, the
    refusal is the last call (nothing is rolled back, no session of rest is
    touched) and Logout answers (false, wrapped refusal). *)
Theorem Logout_fail_fast {S : Type} (h : handler S) (s s1 : S) (a : Auth)
    (accountID : Z) (sessions : list models.Session) :
  h _ (Sessions accountID) s = ((sessions, None), s1) ->
  (result h (Logout a accountID) s = (true, None) /\
   trace h (Logout a accountID) s =
     Ev (Sessions accountID) (sessions, None) :: map revoked sessions) \/
  (exists done x rest e,
      sessions = (done ++ x :: rest)%list /\
      result h (Logout a accountID) s =
        (false, Some (fmt_Errorf "Auth.Logout" (Some e))) /\
      trace h (Logout a accountID) s =
        Ev (Sessions accountID) (sessions, None)
          :: (map revoked done ++ [refused x e])%list).
Proof.
  intros H.
  pose proof (Logout_range_spec h "Auth.Logout" sessions s1) as Hloop.
  unfold result, trace, Logout in *. simpl. rewrite H. simpl.
  destruct (run h (Logout_range "Auth.Logout" sessions) s1) as [[r s2] t]; simpl in *.
  destruct Hloop as [[Hr Ht] | (done & x & rest & e & Hsplit & Hr & Ht)].
  - left. subst. split; reflexivity.
  - right. exists done, x, rest, e. subst. repeat split.
Qed.

(** A run that refuses the second of three revocations: the first session
    is gone from the store, the second and third are still there, and the
    third was never asked for. *)
Example Logout_second_refused :
  run Double.serve (Logout Fixture.auth 1) (Fixture.world 0 ["tok2"]) =
    ((false, Some (fmt_Errorf "Auth.Logout" (Some Double.ErrRevokeRefused))),
     Double.withSessions (Fixture.world 0 ["tok2"])
       [Fixture.session "2" 7200 90000; Fixture.session "3" 9000 93600],
     [Ev (Sessions 1)
        ([Fixture.session "1" 3600 86400; Fixture.session "2" 7200 90000;
          Fixture.session "3" 9000 93600], None);
      revoked (Fixture.session "1" 3600 86400);
      refused (Fixture.session "2" 7200 90000) Double.ErrRevokeRefused]).
Proof. by_evaluation. Qed.

Lemma Logout_fail_fast_witness :
  Double.serve _ (Sessions 1) (Fixture.world 0 ["tok2"]) =
    (([Fixture.session "1" 3600 86400; Fixture.session "2" 7200 90000;
       Fixture.session "3" 9000 93600], None), Fixture.world 0 ["tok2"]) /\
  ((result Double.serve (Logout Fixture.auth 1) (Fixture.world 0 ["tok2"]) = (true, None) /\
    trace Double.serve (Logout Fixture.auth 1) (Fixture.world 0 ["tok2"]) =
      Ev (Sessions 1)
        ([Fixture.session "1" 3600 86400; Fixture.session "2" 7200 90000;
          Fixture.session "3" 9000 93600], None)
        :: map revoked [Fixture.session "1" 3600 86400; Fixture.session "2" 7200 90000;
                        Fixture.session "3" 9000 93600]) \/
   (exists done x rest e,
       [Fixture.session "1" 3600 86400; Fixture.session "2" 7200 90000;
        Fixture.session "3" 9000 93600] = (done ++ x :: rest)%list /\
       result Double.serve (Logout Fixture.auth 1) (Fixture.world 0 ["tok2"]) =
         (false, Some (fmt_Errorf "Auth.Logout" (Some e))) /\
       trace Double.serve (Logout Fixture.auth 1) (Fixture.world 0 ["tok2"]) =
         Ev (Sessions 1)
           ([Fixture.session "1" 3600 86400; Fixture.session "2" 7200 90000;
             Fixture.session "3" 9000 93600], None)
           :: (map revoked done ++ [refused x e])%list)).
Proof.
  split; [by_evaluation |].
  apply (Logout_fail_fast Double.serve (Fixture.world 0 ["tok2"]) (Fixture.world 0 ["tok2"])).
  by_evaluation.
Defined.

(** ** Login *)

(** C10: a Login that returns a non-nil error returns two empty token
    strings, whichever call produced the failure. *)
Theorem Login_failure_returns_no_token {S : Type} (h : handler S) (s s' : S) (a : Auth)
    (email password userAgent ipAddress : string) (appID : Z)
    (token refreshToken : string) (e : error) (t : list event) :
  run h (Login a email password userAgent ipAddress appID) s =
    ((token, refreshToken, Some e), s', t) ->
  token = "" /\ refreshToken = "".
Proof.
  unfold Login, generateRefreshToken. simpl.
  repeat next_answer h;
    try (destruct (errors.Is_chain _ _));
    simpl; intros H; inversion H; split; reflexivity.
Qed.

Lemma Login_failure_returns_no_token_witness :
  snd (result Double.serve (Login Fixture.auth "a@x.com" "guess" "ua" "10.0.0.9" 1)
         (Fixture.world 0 [])) =
    Some (fmt_Errorf "Auth.Login" (Some ErrInvalidCredentials)) /\
  fst (fst (result Double.serve (Login Fixture.auth "a@x.com" "guess" "ua" "10.0.0.9" 1)
              (Fixture.world 0 []))) = "" /\
  snd (fst (result Double.serve (Login Fixture.auth "a@x.com" "guess" "ua" "10.0.0.9" 1)
              (Fixture.world 0 []))) = "".
Proof.
  split; [by_evaluation |].
  apply (Login_failure_returns_no_token Double.serve (Fixture.world 0 [])
           (snd (fst (run Double.serve
                        (Login Fixture.auth "a@x.com" "guess" "ua" "10.0.0.9" 1)
                        (Fixture.world 0 []))))
           Fixture.auth "a@x.com" "guess" "ua" "10.0.0.9" 1 _ _
           (fmt_Errorf "Auth.Login" (Some ErrInvalidCredentials))
           (trace Double.serve (Login Fixture.auth "a@x.com" "guess" "ua" "10.0.0.9" 1)
              (Fixture.world 0 []))).
  by_evaluation.
Defined.

(** C4: a lookup miss reported by the account store (an error that
    [errors.Is] [storage.ErrAccountNotFound], that is the sentinel itself
    or a chain of wrappers around it) and a password that does not verify
    against the stored hash give the same return value, two empty tokens
    and [ErrInvalidCredentials] wrapped under the operation name; any other
    error of the account lookup, one that only shares the sentinel's text
    included, comes back itself, wrapped under the operation name. *)
Theorem Login_invalid_credentials {S : Type} (h : handler S) (s : S) (a : Auth)
    (email password userAgent ipAddress : string) (appID : Z) :
  (forall user e s1,
      h _ (AccountByEmail email) s = ((user, Some e), s1) ->
      errors.Is (Some e) storage.ErrAccountNotFound = true ->
      result h (Login a email password userAgent ipAddress appID) s =
        ("", "", Some (fmt_Errorf "Auth.Login" (Some ErrInvalidCredentials)))) /\
  (forall user s1 e s2,
      h _ (AccountByEmail email) s = ((user, None), s1) ->
      h _ (bcrypt_CompareHashAndPassword (models.PassHash user)
             (bytes_of_string password)) s1 = (Some e, s2) ->
      result h (Login a email password userAgent ipAddress appID) s =
        ("", "", Some (fmt_Errorf "Auth.Login" (Some ErrInvalidCredentials)))) /\
  (forall user e s1,
      h _ (AccountByEmail email) s = ((user, Some e), s1) ->
      errors.Is (Some e) storage.ErrAccountNotFound = false ->
      result h (Login a email password userAgent ipAddress appID) s =
        ("", "", Some (fmt_Errorf "Auth.Login" (Some e)))).
Proof.
  unfold result, Login. split; [| split].
  - intros user e s1 H HIs. answered H. simpl in HIs. rewrite HIs. reflexivity.
  - intros user s1 e s2 H Hcmp. answered H. answered Hcmp. reflexivity.
  - intros user e s1 H HIs. answered H. simpl in HIs. rewrite HIs. reflexivity.
Qed.

Lemma Login_invalid_credentials_witness :
  result Double.serve (Login Fixture.auth "nobody@x.com" "pw123" "ua" "10.0.0.9" 1)
    (Fixture.world 0 []) =
    ("", "", Some (fmt_Errorf "Auth.Login" (Some ErrInvalidCredentials))) /\
  result Double.serve (Login Fixture.auth "a@x.com" "guess" "ua" "10.0.0.9" 1)
    (Fixture.world 0 []) =
    ("", "", Some (fmt_Errorf "Auth.Login" (Some ErrInvalidCredentials))) /\
  result Double.serve (Login Fixture.auth "a@x.com" "pw123" "ua" "10.0.0.9" 1)
    Fixture.down =
    ("", "", Some (fmt_Errorf "Auth.Login" (Some Fixture.ErrDown))) /\
  Error Scenario.lookalike = Error storage.ErrAccountNotFound /\
  result Double.serve (Login Fixture.auth "a@x.com" "pw123" "ua" "10.0.0.9" 1)
    Scenario.misleading =
    ("", "", Some (fmt_Errorf "Auth.Login" (Some Scenario.lookalike))).
Proof.
  split; [| split; [| split; [| split; [reflexivity |]]]].
  - apply (proj1 (Login_invalid_credentials Double.serve (Fixture.world 0 []) Fixture.auth
                    "nobody@x.com" "pw123" "ua" "10.0.0.9" 1)
             Double.noAccount storage.ErrAccountNotFound (Fixture.world 0 []));
      by_evaluation.
  - apply (proj1 (proj2 (Login_invalid_credentials Double.serve (Fixture.world 0 [])
                           Fixture.auth "a@x.com" "guess" "ua" "10.0.0.9" 1))
             Fixture.alice (Fixture.world 0 []) Double.ErrMismatchedHashAndPassword
             (Fixture.world 0 []));
      by_evaluation.
  - apply (proj2 (proj2 (Login_invalid_credentials Double.serve Fixture.down
                           Fixture.auth "a@x.com" "pw123" "ua" "10.0.0.9" 1))
             Double.noAccount Fixture.ErrDown Fixture.down);
      by_evaluation.
  - apply (proj2 (proj2 (Login_invalid_credentials Double.serve Scenario.misleading
                           Fixture.auth "a@x.com" "pw123" "ua" "10.0.0.9" 1))
             Double.noAccount Scenario.lookalike Scenario.misleading);
      by_evaluation.
Defined.

(** ** RegisterNewAccount *)

(** C5: registration never calls the session store, and a registration
    that succeeds made exactly two calls: the hashing of the password and
    one SaveAccount carrying that hash and the status ACTIVE, whose id it
    returns. *)
Theorem RegisterNewAccount_effects {S : Type} (h : handler S) (s : S) (a : Auth)
    (email pass : string) (role : models.AccountRole) (appId : Z) :
  existsb isSessionStoreCall (trace h (RegisterNewAccount a email pass role appId) s) = false /\
  (forall id s' t,
      run h (RegisterNewAccount a email pass role appId) s = ((id, None), s', t) ->
      exists passHash,
        t = [Ev (bcrypt_GenerateFromPassword (bytes_of_string pass) bcrypt.DefaultCost)
               (passHash, None);
             Ev (SaveAccount email passHash role models.ACTIVE appId) (id, None)] /\
        filter isSaveAccount t =
          [Ev (SaveAccount email passHash role models.ACTIVE appId) (id, None)]).
Proof.
  unfold trace, RegisterNewAccount. simpl. split.
  - repeat next_answer h; reflexivity.
  - intros id s' t.
    repeat next_answer h; intros H; inversion H; subst.
    eexists. split; reflexivity.
Qed.

Lemma RegisterNewAccount_effects_witness :
  existsb isSessionStoreCall
    (trace Double.serve (RegisterNewAccount Fixture.auth "a@x.com" "pw123" models.STANDARD 1)
       Fixture.empty) = false /\
  exists passHash,
    trace Double.serve (RegisterNewAccount Fixture.auth "a@x.com" "pw123" models.STANDARD 1)
      Fixture.empty =
      [Ev (bcrypt_GenerateFromPassword (bytes_of_string "pw123") bcrypt.DefaultCost)
         (passHash, None);
       Ev (SaveAccount "a@x.com" passHash models.STANDARD models.ACTIVE 1) (1, None)] /\
    filter isSaveAccount
      (trace Double.serve (RegisterNewAccount Fixture.auth "a@x.com" "pw123" models.STANDARD 1)
         Fixture.empty) =
      [Ev (SaveAccount "a@x.com" passHash models.STANDARD models.ACTIVE 1) (1, None)].
Proof.
  split.
  - apply (proj1 (RegisterNewAccount_effects Double.serve Fixture.empty Fixture.auth
                    "a@x.com" "pw123" models.STANDARD 1)).
  - apply (proj2 (RegisterNewAccount_effects Double.serve Fixture.empty Fixture.auth
                    "a@x.com" "pw123" models.STANDARD 1)
             1 (Double.withAccounts Fixture.empty [Fixture.alice])).
    by_evaluation.
Defined.

(** ** RefreshAccountSession *)

(** The expiry branch, against any collaborators: when the account, its app
    and the session are found and the session's refreshExpiresAt is before
    the clock reading, the call stops there and its error is [fmt.Errorf]
    applied to a nil error. *)
Lemma RefreshAccountSession_expired {S : Type} (h : handler S) (s s1 s2 s3 s4 : S)
    (a : Auth) (accountID : Z) (refreshToken userAgent ipAddress : string)
    (account : models.Account) (app : models.App) (session : models.Session)
    (now : Time) :
  h _ (AccountById accountID) s = ((account, None), s1) ->
  h _ (App (models.AppId account)) s1 = ((app, None), s2) ->
  h _ (SessionByRefreshToken refreshToken) s2 = ((session, None), s3) ->
  h _ time_Now s3 = (now, s4) ->
  unixNano (models.RefreshExpiresAt session) < unixNano now ->
  run h (RefreshAccountSession a accountID refreshToken userAgent ipAddress) s =
    (("", "", 0, Some (fmt_Errorf "Auth.RefreshAccountSession" None)), s4,
     [Ev (AccountById accountID) (account, None);
      Ev (App (models.AppId account)) (app, None);
      Ev (SessionByRefreshToken refreshToken) (session, None);
      Ev time_Now now]).
Proof.
  intros Hacc Happ Hses Hnow Hlt. unfold RefreshAccountSession.
  answered Hacc. answered Happ. answered Hses. answered Hnow.
  unfold time.Before. apply Z.ltb_lt in Hlt. rewrite Hlt. reflexivity.
Qed.

(** C6: a refresh that succeeds made exactly these calls, in this order:
    three lookups (account, app, session by refresh token), a clock reading,
    the signing of the new token, the drawing of 32 random bytes, a second
    clock reading, and one SaveSession whose expiry is that second reading
    plus refreshTokenTTL.  No revocation is among them, and the session
    found by the presented refresh token is only read. *)
Theorem RefreshAccountSession_additive {S : Type} (h : handler S) (s s' : S) (a : Auth)
    (accountID : Z) (refreshToken userAgent ipAddress : string)
    (newToken newRefreshToken : string) (expires : Z) (t : list event) :
  run h (RefreshAccountSession a accountID refreshToken userAgent ipAddress) s =
    ((newToken, newRefreshToken, expires, None), s', t) ->
  exists account app session now1 raw now2 sessionID,
    t = [Ev (AccountById accountID) (account, None);
         Ev (App (models.AppId account)) (app, None);
         Ev (SessionByRefreshToken refreshToken) (session, None);
         Ev time_Now now1;
         Ev (jwt_NewToken account app (tokenTTL a)) (newToken, None);
         Ev (rand_Read 32) (raw, None);
         Ev time_Now now2;
         Ev (SaveSession accountID userAgent ipAddress newToken newRefreshToken
               (time.Add now2 (refreshTokenTTL a))) (sessionID, None)] /\
    filter isSaveSession t =
      [Ev (SaveSession accountID userAgent ipAddress newToken newRefreshToken
             (time.Add now2 (refreshTokenTTL a))) (sessionID, None)] /\
    existsb isRevokeSession t = false /\
    newRefreshToken = base64.EncodeToString raw /\
    expires = time.Unix (time.Add now2 (refreshTokenTTL a)).
Proof.
  unfold RefreshAccountSession, generateRefreshToken. simpl.
  repeat first
    [ next_answer h
    | match goal with
      | |- context [time.Before ?x ?y] => destruct (time.Before x y); simpl
      end ];
    intros H; inversion H; subst.
  do 7 eexists. repeat split.
Qed.

Lemma RefreshAccountSession_additive_witness :
  result Double.serve (RefreshAccountSession Fixture.auth 1 "ref1" "ua" "10.0.0.9")
    (Fixture.world 0 []) =
    ("jwt:a@x.com", "KioqKioqKioqKioqKioqKioqKioqKioqKioqKioqKio=", 86400, None) /\
  exists account app session now1 raw now2 sessionID,
    trace Double.serve (RefreshAccountSession Fixture.auth 1 "ref1" "ua" "10.0.0.9")
      (Fixture.world 0 []) =
      [Ev (AccountById 1) (account, None);
       Ev (App (models.AppId account)) (app, None);
       Ev (SessionByRefreshToken "ref1") (session, None);
       Ev time_Now now1;
       Ev (jwt_NewToken account app (tokenTTL Fixture.auth)) ("jwt:a@x.com", None);
       Ev (rand_Read 32) (raw, None);
       Ev time_Now now2;
       Ev (SaveSession 1 "ua" "10.0.0.9" "jwt:a@x.com"
             "KioqKioqKioqKioqKioqKioqKioqKioqKioqKioqKio="
             (time.Add now2 (refreshTokenTTL Fixture.auth))) (sessionID, None)] /\
    filter isSaveSession
      (trace Double.serve (RefreshAccountSession Fixture.auth 1 "ref1" "ua" "10.0.0.9")
         (Fixture.world 0 [])) =
      [Ev (SaveSession 1 "ua" "10.0.0.9" "jwt:a@x.com"
             "KioqKioqKioqKioqKioqKioqKioqKioqKioqKioqKio="
             (time.Add now2 (refreshTokenTTL Fixture.auth))) (sessionID, None)] /\
    existsb isRevokeSession
      (trace Double.serve (RefreshAccountSession Fixture.auth 1 "ref1" "ua" "10.0.0.9")
         (Fixture.world 0 [])) = false /\
    "KioqKioqKioqKioqKioqKioqKioqKioqKioqKioqKio=" = base64.EncodeToString raw /\
    86400 = time.Unix (time.Add now2 (refreshTokenTTL Fixture.auth)).
Proof.
  split; [by_evaluation |].
  apply (RefreshAccountSession_additive Double.serve (Fixture.world 0 [])
           (snd (fst (run Double.serve
                        (RefreshAccountSession Fixture.auth 1 "ref1" "ua" "10.0.0.9")
                        (Fixture.world 0 []))))).
  by_evaluation.
Defined.

(** After a refresh the in-memory store holds the three earlier sessions
    untouched, followed by the new one. *)
Example RefreshAccountSession_keeps_prior_sessions :
  firstn 3 (Double.sessions
              (snd (fst (run Double.serve
                           (RefreshAccountSession Fixture.auth 1 "ref1" "ua" "10.0.0.9")
                           (Fixture.world 0 []))))) =
    Double.sessions (Fixture.world 0 []) /\
  List.length (Double.sessions
                 (snd (fst (run Double.serve
                              (RefreshAccountSession Fixture.auth 1 "ref1" "ua" "10.0.0.9")
                              (Fixture.world 0 []))))) = 4%nat.
Proof. split; by_evaluation. Qed.

(** C1, the code at an expired refresh token: one nanosecond after the
    refreshExpiresAt of the session found by "ref1", the call fails, but
    the error it returns is [fmt.Errorf] applied to nil: it wraps nothing
    and [errors.Is] matches it against no sentinel, so no refresh-token
    expiry kind can be read from it. *)
Theorem RefreshAccountSession_expired_wraps_nil :
  time.Before (models.RefreshExpiresAt (Fixture.session "1" 3600 86400))
    (Double.clock (Fixture.world (86400 * time.Second + 1) [])) = true /\
  result Double.serve (RefreshAccountSession Fixture.auth 1 "ref1" "ua" "10.0.0.9")
    (Fixture.world (86400 * time.Second + 1) []) =
    ("", "", 0, Some (fmt_Errorf "Auth.RefreshAccountSession" None)) /\
  errors.Unwrap (fmt_Errorf "Auth.RefreshAccountSession" None) = None /\
  forall (ptr : N) (text : string),
    errors.Is
      (snd (result Double.serve
              (RefreshAccountSession Fixture.auth 1 "ref1" "ua" "10.0.0.9")
              (Fixture.world (86400 * time.Second + 1) [])))
      (errors_New ptr text) = false.
Proof.
  assert (Hrun :
    run Double.serve (RefreshAccountSession Fixture.auth 1 "ref1" "ua" "10.0.0.9")
      (Fixture.world (86400 * time.Second + 1) []) =
    (("", "", 0, Some (fmt_Errorf "Auth.RefreshAccountSession" None)),
     Fixture.world (86400 * time.Second + 2) [],
     [Ev (AccountById 1) (Fixture.alice, None);
      Ev (App (models.AppId Fixture.alice)) (Fixture.app1, None);
      Ev (SessionByRefreshToken "ref1") (Fixture.session "1" 3600 86400, None);
      Ev time_Now (mkTime (86400 * time.Second + 1))])).
  { apply (RefreshAccountSession_expired Double.serve
             (Fixture.world (86400 * time.Second + 1) [])
             (Fixture.world (86400 * time.Second + 1) [])
             (Fixture.world (86400 * time.Second + 1) [])
             (Fixture.world (86400 * time.Second + 1) []));
      by_evaluation. }
  unfold result. rewrite Hrun. simpl fst. simpl snd.
  split; [by_evaluation | split; [reflexivity | split; [reflexivity |]]].
  intros ptr text. apply Is_wrapped_nil.
Qed.

(** ** ChangePassword *)

(** C7, as the code has it.  A failed account lookup fails the call with
    the store's error wrapped (so with AccountNotFound when that is what
    the store reported) and an old password that does not verify fails it
    with [ErrInvalidCredentials]; in both cases no UpdatePassword is
    issued.  Otherwise the new password is hashed: a hashing failure fails
    the call with no update issued; a hash is handed to UpdatePassword for
    the same account, and the call succeeds when the store accepts it and
    fails with the store's error wrapped when it does not. *)
Theorem ChangePassword_spec {S : Type} (h : handler S) (s : S) (a : Auth)
    (accountID : Z) (oldPassword newPassword : string) :
  (forall account e s1,
      h _ (AccountById accountID) s = ((account, Some e), s1) ->
      result h (ChangePassword a accountID oldPassword newPassword) s =
        (false, Some (fmt_Errorf "Auth.ChangePassword" (Some e))) /\
      (errors.Is (Some e) storage.ErrAccountNotFound = true ->
       errors.Is (snd (result h (ChangePassword a accountID oldPassword newPassword) s))
         storage.ErrAccountNotFound = true) /\
      existsb isUpdatePassword
        (trace h (ChangePassword a accountID oldPassword newPassword) s) = false) /\
  (forall account s1 e s2,
      h _ (AccountById accountID) s = ((account, None), s1) ->
      h _ (bcrypt_CompareHashAndPassword (models.PassHash account)
             (bytes_of_string oldPassword)) s1 = (Some e, s2) ->
      result h (ChangePassword a accountID oldPassword newPassword) s =
        (false, Some (fmt_Errorf "Auth.ChangePassword" (Some ErrInvalidCredentials))) /\
      existsb isUpdatePassword
        (trace h (ChangePassword a accountID oldPassword newPassword) s) = false) /\
  (forall account s1 s2 newPassHash e s3,
      h _ (AccountById accountID) s = ((account, None), s1) ->
      h _ (bcrypt_CompareHashAndPassword (models.PassHash account)
             (bytes_of_string oldPassword)) s1 = (None, s2) ->
      h _ (bcrypt_GenerateFromPassword (bytes_of_string newPassword) bcrypt.DefaultCost) s2 =
        ((newPassHash, Some e), s3) ->
      result h (ChangePassword a accountID oldPassword newPassword) s =
        (false, Some (fmt_Errorf "Auth.ChangePassword" (Some e))) /\
      existsb isUpdatePassword
        (trace h (ChangePassword a accountID oldPassword newPassword) s) = false) /\
  (forall account s1 s2 newPassHash s3 answer s4,
      h _ (AccountById accountID) s = ((account, None), s1) ->
      h _ (bcrypt_CompareHashAndPassword (models.PassHash account)
             (bytes_of_string oldPassword)) s1 = (None, s2) ->
      h _ (bcrypt_GenerateFromPassword (bytes_of_string newPassword) bcrypt.DefaultCost) s2 =
        ((newPassHash, None), s3) ->
      h _ (UpdatePassword accountID newPassHash) s3 = (answer, s4) ->
      result h (ChangePassword a accountID oldPassword newPassword) s =
        match answer with
        | None => (true, None)
        | Some e => (false, Some (fmt_Errorf "Auth.ChangePassword" (Some e)))
        end /\
      filter isUpdatePassword
        (trace h (ChangePassword a accountID oldPassword newPassword) s) =
        [Ev (UpdatePassword accountID newPassHash) answer]).
Proof.
  unfold result, trace, ChangePassword. split; [| split; [| split]].
  - intros account e s1 H. answered H. split; [reflexivity | split; [| reflexivity]].
    intros HIs. exact HIs.
  - intros account s1 e s2 H Hcmp. answered H. answered Hcmp. split; reflexivity.
  - intros account s1 s2 newPassHash e s3 H Hcmp Hgen.
    answered H. answered Hcmp. answered Hgen. split; reflexivity.
  - intros account s1 s2 newPassHash s3 answer s4 H Hcmp Hgen Hupd.
    answered H. answered Hcmp. answered Hgen. answered Hupd.
    destruct answer; split; reflexivity.
Qed.

Lemma ChangePassword_spec_witness :
  result Double.serve (ChangePassword Fixture.auth 7 "pw123" "pw456") (Fixture.world 0 []) =
    (false, Some (fmt_Errorf "Auth.ChangePassword" (Some storage.ErrAccountNotFound))) /\
  result Double.serve (ChangePassword Fixture.auth 1 "guess" "pw456") (Fixture.world 0 []) =
    (false, Some (fmt_Errorf "Auth.ChangePassword" (Some ErrInvalidCredentials))) /\
  result Double.serve (ChangePassword Fixture.auth 1 "pw123" Fixture.passphrase)
    (Fixture.world 0 []) =
    (false, Some (fmt_Errorf "Auth.ChangePassword" (Some Double.ErrPasswordTooLong))) /\
  result Double.serve (ChangePassword Fixture.auth 1 "pw123" "pw456") (Fixture.world 0 []) =
    (true, None) /\
  filter isUpdatePassword
    (trace Double.serve (ChangePassword Fixture.auth 1 "pw123" "pw456") (Fixture.world 0 [])) =
    [Ev (UpdatePassword 1 (Double.hash (bytes_of_string "pw456"))) None].
Proof.
  pose (w := Fixture.world 0 []).
  split; [| split; [| split]].
  - apply (proj1 (ChangePassword_spec Double.serve w Fixture.auth 7 "pw123" "pw456")
             Double.noAccount storage.ErrAccountNotFound w).
    by_evaluation.
  - apply (proj1 (proj2 (ChangePassword_spec Double.serve w Fixture.auth 1 "guess" "pw456"))
             Fixture.alice w Double.ErrMismatchedHashAndPassword w); by_evaluation.
  - apply (proj1 (proj2 (proj2 (ChangePassword_spec Double.serve w Fixture.auth 1 "pw123"
                                   Fixture.passphrase)))
             Fixture.alice w w [] Double.ErrPasswordTooLong w); by_evaluation.
  - apply (proj2 (proj2 (proj2 (ChangePassword_spec Double.serve w Fixture.auth 1 "pw123"
                                   "pw456")))
             Fixture.alice w w (Double.hash (bytes_of_string "pw456")) w None
             (snd (Double.serve _ (UpdatePassword 1 (Double.hash (bytes_of_string "pw456")))
                     w)));
      by_evaluation.
Defined.

(** C7 as stated fails past the two checks: the account is found and the
    old password verifies, yet the call does not succeed, because bcrypt
    refuses the 73-byte new password; no update is issued. *)
Lemma ChangePassword_hashing_failure :
  Double.serve _ (AccountById 1) (Fixture.world 0 []) =
    ((Fixture.alice, None), Fixture.world 0 []) /\
  Double.serve _ (bcrypt_CompareHashAndPassword (models.PassHash Fixture.alice)
                    (bytes_of_string "pw123")) (Fixture.world 0 []) =
    (None, Fixture.world 0 []) /\
  result Double.serve (ChangePassword Fixture.auth 1 "pw123" Fixture.passphrase)
    (Fixture.world 0 []) =
    (false, Some (fmt_Errorf "Auth.ChangePassword" (Some Double.ErrPasswordTooLong))) /\
  existsb isUpdatePassword
    (trace Double.serve (ChangePassword Fixture.auth 1 "pw123" Fixture.passphrase)
       (Fixture.world 0 [])) = false /\
  result Double.serve (ChangePassword Fixture.auth 1 "pw123" Fixture.passphrase)
    (Fixture.world 0 []) <> (true, None).
Proof.
  split; [by_evaluation | split; [by_evaluation | split; [by_evaluation |
    split; [by_evaluation |]]]].
  vm_compute. discriminate.
Qed.

(** * Further properties of the code *)

(** ** base64.URLEncoding.EncodeToString, as used by generateRefreshToken *)

(** Induction on a byte string three bytes at a time, the way the encoder
    consumes it. *)
Lemma bytes_ind3 (P : bytes -> Prop) :
  P [] ->
  (forall b0, P [b0]) ->
  (forall b0 b1, P [b0; b1]) ->
  (forall b0 b1 b2 rest, P rest -> P (b0 :: b1 :: b2 :: rest)) ->
  forall src, P src.
Proof.
  intros H0 H1 H2 H3. fix IH 1.
  intros [| b0 [| b1 [| b2 rest]]].
  - exact H0.
  - apply H1.
  - apply H2.
  - apply H3. apply IH.
Qed.

(** The encoding of n bytes has 4 * ceil (n / 3) characters. *)
Theorem EncodeToString_length (src : bytes) :
  String.length (base64.EncodeToString src) = (4 * ((List.length src + 2) / 3))%nat.
Proof.
  induction src as [| b0 | b0 b1 | b0 b1 b2 rest IH] using bytes_ind3;
    try reflexivity.
  cbn [base64.EncodeToString String.length List.length]. rewrite IH.
  replace (S (S (S (List.length rest))) + 2)%nat
    with ((List.length rest + 2) + 1 * 3)%nat by lia.
  rewrite Nat.div_add by discriminate. lia.
Qed.

Lemma land_63_bound (v : N) : (N.land v 63 < 64)%N.
Proof.
  change 63%N with (N.ones 6). rewrite N.land_ones.
  apply N.mod_lt. discriminate.
Qed.

(** On the first 64 positions, [indexOf] inverts the alphabet lookup. *)
Lemma indexOf_alphabet (n : nat) :
  (n < 64)%nat ->
  indexOf (nth n (list_ascii_of_string base64.encodeURL) base64.StdPadding)
    (list_ascii_of_string base64.encodeURL) = n.
Proof.
  intros Hn.
  do 64 (destruct n as [| n]; [reflexivity |]). lia.
Qed.

Lemma indexOf_digit (v : N) :
  indexOf (base64.digit v) (list_ascii_of_string base64.encodeURL) =
    N.to_nat (N.land v 63).
Proof.
  unfold base64.digit. apply indexOf_alphabet.
  pose proof (land_63_bound v). lia.
Qed.

Lemma digit_urlSafe (v : N) : urlSafe (base64.digit v) = true.
Proof.
  unfold urlSafe. apply existsb_exists. exists (base64.digit v). split.
  - unfold base64.digit. apply nth_In.
    pose proof (land_63_bound v). change (List.length _) with 64%nat. lia.
  - apply Ascii.eqb_refl.
Qed.

Lemma digit_not_padding (v : N) : base64.digit v <> base64.StdPadding.
Proof.
  intros H. pose proof (indexOf_digit v) as Hi. rewrite H in Hi.
  pose proof (land_63_bound v). change (indexOf _ _) with 64%nat in Hi. lia.
Qed.

(** Every character of an encoding is one of the 64 characters of the URL
    alphabet or the padding character. *)
Theorem EncodeToString_alphabet (src : bytes) :
  forallb (fun c => urlSafe c || Ascii.eqb c base64.StdPadding)
    (list_ascii_of_string (base64.EncodeToString src)) = true.
Proof.
  induction src as [| b0 | b0 b1 | b0 b1 b2 rest IH] using bytes_ind3;
    cbn [base64.EncodeToString list_ascii_of_string forallb];
    rewrite ?digit_urlSafe; try reflexivity.
  exact IH.
Qed.

Lemma to_N_lt (b : byte) : (Byte.to_N b < 256)%N.
Proof. pose proof (Byte.to_N_bounded b). lia. Qed.

Lemma to_N_inj (a b : byte) : Byte.to_N a = Byte.to_N b -> a = b.
Proof.
  intros H. pose proof (Byte.of_to_N a) as Ha. rewrite H, Byte.of_to_N in Ha.
  injection Ha as Ha. symmetry. exact Ha.
Qed.

(** Or-ing a value below 2^k under a value shifted left by k adds them. *)
Lemma lor_shiftl_add (a b k : N) :
  (b < 2 ^ k)%N -> N.lor (N.shiftl a k) b = (a * 2 ^ k + b)%N.
Proof.
  intros Hb. rewrite <- N.shiftl_mul_pow2.
  assert (Hland : N.land (N.shiftl a k) b = 0%N).
  { apply N.bits_inj. intros n. rewrite N.land_spec, N.bits_0.
    destruct (N.lt_ge_cases n k) as [Hn | Hn].
    - rewrite N.shiftl_spec_low by exact Hn. reflexivity.
    - rewrite <- (N.mod_small b (2 ^ k)) by exact Hb.
      rewrite N.mod_pow2_bits_high by exact Hn. apply andb_false_r. }
  rewrite <- N.lxor_lor by exact Hland.
  symmetry. apply N.add_nocarry_lxor. exact Hland.
Qed.

Lemma group_value (b0 b1 b2 : byte) :
  base64.group b0 b1 b2 =
    (Byte.to_N b0 * 65536 + Byte.to_N b1 * 256 + Byte.to_N b2)%N.
Proof.
  unfold base64.group.
  pose proof (to_N_lt b1). pose proof (to_N_lt b2).
  rewrite (lor_shiftl_add (Byte.to_N b1) (Byte.to_N b2) 8) by (simpl; lia).
  rewrite (lor_shiftl_add (Byte.to_N b0) _ 16) by (simpl; lia).
  simpl (2 ^ _)%N. lia.
Qed.

Lemma sextet (v k : N) : N.land (N.shiftr v k) 63 = ((v / 2 ^ k) mod 64)%N.
Proof.
  rewrite N.shiftr_div_pow2. change 63%N with (N.ones 6). apply N.land_ones.
Qed.

(** A 24-bit value is the sum of its four sextets. *)
Lemma sextets_rebuild (v : N) :
  (v < 16777216)%N ->
  v = (262144 * ((v / 2 ^ 18) mod 64) + 4096 * ((v / 2 ^ 12) mod 64)
       + 64 * ((v / 2 ^ 6) mod 64) + (v / 2 ^ 0) mod 64)%N.
Proof.
  intros Hv.
  change (2 ^ 18)%N with (64 * 64 * 64)%N. change (2 ^ 12)%N with (64 * 64)%N.
  change (2 ^ 6)%N with 64%N. change (2 ^ 0)%N with 1%N.
  rewrite N.div_1_r, <- !N.Div0.div_div.
  pose proof (N.div_mod v 64 ltac:(discriminate)) as H1.
  pose proof (N.div_mod (v / 64) 64 ltac:(discriminate)) as H2.
  pose proof (N.div_mod (v / 64 / 64) 64 ltac:(discriminate)) as H3.
  pose proof (N.mod_lt v 64 ltac:(discriminate)).
  pose proof (N.mod_lt (v / 64) 64 ltac:(discriminate)).
  pose proof (N.mod_lt (v / 64 / 64) 64 ltac:(discriminate)).
  assert (Hq : (v / 64 / 64 / 64 < 64)%N).
  { generalize dependent (v / 64 / 64 / 64)%N.
    generalize dependent ((v / 64 / 64) mod 64)%N. generalize dependent (v / 64 / 64)%N.
    generalize dependent ((v / 64) mod 64)%N. generalize dependent (v / 64)%N.
    generalize dependent (v mod 64)%N.
    intros. lia. }
  rewrite (N.mod_small _ _ Hq).
  generalize dependent (v / 64 / 64 / 64)%N.
  generalize dependent ((v / 64 / 64) mod 64)%N. generalize dependent (v / 64 / 64)%N.
  generalize dependent ((v / 64) mod 64)%N. generalize dependent (v / 64)%N.
  generalize dependent (v mod 64)%N.
  intros. lia.
Qed.

(** The four sextets of a group determine its three bytes. *)
Lemma group_sextets_inj (a0 a1 a2 b0 b1 b2 : byte) :
  N.land (N.shiftr (base64.group a0 a1 a2) 18) 63 =
    N.land (N.shiftr (base64.group b0 b1 b2) 18) 63 ->
  N.land (N.shiftr (base64.group a0 a1 a2) 12) 63 =
    N.land (N.shiftr (base64.group b0 b1 b2) 12) 63 ->
  N.land (N.shiftr (base64.group a0 a1 a2) 6) 63 =
    N.land (N.shiftr (base64.group b0 b1 b2) 6) 63 ->
  N.land (N.shiftr (base64.group a0 a1 a2) 0) 63 =
    N.land (N.shiftr (base64.group b0 b1 b2) 0) 63 ->
  a0 = b0 /\ a1 = b1 /\ a2 = b2.
Proof.
  rewrite !sextet. intros H18 H12 H6 H0.
  assert (Ha : (base64.group a0 a1 a2 < 16777216)%N).
  { rewrite group_value. pose proof (to_N_lt a0). pose proof (to_N_lt a1).
    pose proof (to_N_lt a2). lia. }
  assert (Hb : (base64.group b0 b1 b2 < 16777216)%N).
  { rewrite group_value. pose proof (to_N_lt b0). pose proof (to_N_lt b1).
    pose proof (to_N_lt b2). lia. }
  assert (Heq : base64.group a0 a1 a2 = base64.group b0 b1 b2).
  { rewrite (sextets_rebuild _ Ha), (sextets_rebuild _ Hb), H18, H12, H6, H0.
    reflexivity. }
  rewrite !group_value in Heq.
  pose proof (to_N_lt a0). pose proof (to_N_lt a1). pose proof (to_N_lt a2).
  pose proof (to_N_lt b0). pose proof (to_N_lt b1). pose proof (to_N_lt b2).
  assert (Byte.to_N a0 = Byte.to_N b0 /\ Byte.to_N a1 = Byte.to_N b1 /\
          Byte.to_N a2 = Byte.to_N b2) as (E0 & E1 & E2) by lia.
  repeat split; apply to_N_inj; assumption.
Qed.

Lemma digit_eq (v w : N) :
  base64.digit v = base64.digit w -> N.land v 63 = N.land w 63.
Proof.
  intros H. apply N2Nat.inj. rewrite <- !indexOf_digit, H. reflexivity.
Qed.

(** A group whose last byte is zero has a zero last sextet, and one whose
    last two bytes are zero has two. *)
Lemma group_low_sextet (b0 b1 : byte) :
  N.land (N.shiftr (base64.group b0 b1 x00) 0) 63 = 0%N.
Proof.
  rewrite sextet, group_value. change (Byte.to_N x00) with 0%N.
  change (2 ^ 0)%N with 1%N. rewrite N.div_1_r.
  replace (Byte.to_N b0 * 65536 + Byte.to_N b1 * 256 + 0)%N
    with ((Byte.to_N b0 * 1024 + Byte.to_N b1 * 4) * 64)%N by lia.
  apply N.Div0.mod_mul.
Qed.

Lemma group_mid_sextet (b0 : byte) :
  N.land (N.shiftr (base64.group b0 x00 x00) 6) 63 = 0%N.
Proof.
  rewrite sextet, group_value. change (Byte.to_N x00) with 0%N.
  change (2 ^ 6)%N with 64%N.
  replace (Byte.to_N b0 * 65536 + 0 * 256 + 0)%N
    with (Byte.to_N b0 * 1024 * 64)%N by lia.
  rewrite N.div_mul by discriminate.
  replace (Byte.to_N b0 * 1024)%N with (Byte.to_N b0 * 16 * 64)%N by lia.
  apply N.Div0.mod_mul.
Qed.

Lemma group_digits_inj (a0 a1 a2 b0 b1 b2 : byte) :
  base64.digit (N.shiftr (base64.group a0 a1 a2) 18) =
    base64.digit (N.shiftr (base64.group b0 b1 b2) 18) ->
  base64.digit (N.shiftr (base64.group a0 a1 a2) 12) =
    base64.digit (N.shiftr (base64.group b0 b1 b2) 12) ->
  base64.digit (N.shiftr (base64.group a0 a1 a2) 6) =
    base64.digit (N.shiftr (base64.group b0 b1 b2) 6) ->
  base64.digit (base64.group a0 a1 a2) = base64.digit (base64.group b0 b1 b2) ->
  a0 = b0 /\ a1 = b1 /\ a2 = b2.
Proof.
  intros H18 H12 H6 H0. apply group_sextets_inj.
  - apply digit_eq, H18.
  - apply digit_eq, H12.
  - apply digit_eq, H6.
  - rewrite !N.shiftr_0_r. apply digit_eq, H0.
Qed.

Lemma group2_digits_inj (a0 a1 b0 b1 : byte) :
  base64.digit (N.shiftr (base64.group a0 a1 x00) 18) =
    base64.digit (N.shiftr (base64.group b0 b1 x00) 18) ->
  base64.digit (N.shiftr (base64.group a0 a1 x00) 12) =
    base64.digit (N.shiftr (base64.group b0 b1 x00) 12) ->
  base64.digit (N.shiftr (base64.group a0 a1 x00) 6) =
    base64.digit (N.shiftr (base64.group b0 b1 x00) 6) ->
  a0 = b0 /\ a1 = b1.
Proof.
  intros H18 H12 H6.
  destruct (group_sextets_inj a0 a1 x00 b0 b1 x00) as (E0 & E1 & _).
  - apply digit_eq, H18.
  - apply digit_eq, H12.
  - apply digit_eq, H6.
  - rewrite !group_low_sextet. reflexivity.
  - split; assumption.
Qed.

Lemma group1_digits_inj (a0 b0 : byte) :
  base64.digit (N.shiftr (base64.group a0 x00 x00) 18) =
    base64.digit (N.shiftr (base64.group b0 x00 x00) 18) ->
  base64.digit (N.shiftr (base64.group a0 x00 x00) 12) =
    base64.digit (N.shiftr (base64.group b0 x00 x00) 12) ->
  a0 = b0.
Proof.
  intros H18 H12.
  destruct (group_sextets_inj a0 x00 x00 b0 x00 x00) as (E0 & _).
  - apply digit_eq, H18.
  - apply digit_eq, H12.
  - rewrite !group_mid_sextet. reflexivity.
  - rewrite !group_low_sextet. reflexivity.
  - exact E0.
Qed.

Lemma String_inj (c1 c2 : ascii) (s1 s2 : string) :
  String c1 s1 = String c2 s2 -> c1 = c2 /\ s1 = s2.
Proof. intros H. injection H as Hc Hs. split; assumption. Qed.

(** Splits an equation between two strings that both start with explicit
    characters into the equations between those characters, and closes the
    goal when an empty string faces a character or a padding character
    faces a digit. *)
Ltac split_chars H :=
  repeat match type of H with
         | String _ _ = String _ _ =>
             let Hc := fresh "Hc" in
             apply String_inj in H; destruct H as [Hc H]
         end;
  try match type of H with
      | EmptyString = String _ _ => discriminate H
      | String _ _ = EmptyString => discriminate H
      end;
  try match goal with
      | Hx : base64.StdPadding = base64.digit _ |- _ =>
          exfalso; exact (digit_not_padding _ (eq_sym Hx))
      | Hx : base64.digit _ = base64.StdPadding |- _ =>
          exfalso; exact (digit_not_padding _ Hx)
      end.

(** Different byte strings have different encodings. *)
Theorem EncodeToString_injective (x y : bytes) :
  base64.EncodeToString x = base64.EncodeToString y -> x = y.
Proof.
  revert y.
  induction x as [| a0 | a0 a1 | a0 a1 a2 x IH] using bytes_ind3;
    intros [| b0 [| b1 [| b2 y]]]; cbn [base64.EncodeToString]; intros H;
    split_chars H.
  - reflexivity.
  - f_equal. exact (group1_digits_inj _ _ Hc Hc0).
  - destruct (group2_digits_inj _ _ _ _ Hc Hc0 Hc1) as [E0 E1].
    subst. reflexivity.
  - destruct (group_digits_inj _ _ _ _ _ _ Hc Hc0 Hc1 Hc2) as (E0 & E1 & E2).
    subst. rewrite (IH _ H). reflexivity.
Qed.

(** ** generateRefreshToken *)

(** X1: the random source is asked once, for 32 bytes.  When it fails, the
    result is the empty string with the source's own error, not wrapped.
    When it delivers 32 bytes, the token is their encoding: 44 characters,
    each from the URL alphabet or the padding character. *)
Theorem generateRefreshToken_shape {S : Type} (h : handler S) (s : S) :
  (forall raw e s1,
      h _ (rand_Read 32) s = ((raw, Some e), s1) ->
      run h generateRefreshToken s = (("", Some e), s1, [Ev (rand_Read 32) (raw, Some e)])) /\
  (forall raw s1,
      h _ (rand_Read 32) s = ((raw, None), s1) ->
      List.length raw = 32%nat ->
      run h generateRefreshToken s =
        ((base64.EncodeToString raw, None), s1, [Ev (rand_Read 32) (raw, None)]) /\
      String.length (fst (result h generateRefreshToken s)) = 44%nat /\
      forallb (fun c => urlSafe c || Ascii.eqb c base64.StdPadding)
        (list_ascii_of_string (fst (result h generateRefreshToken s))) = true).
Proof.
  unfold result, generateRefreshToken. split.
  - intros raw e s1 H. answered H. reflexivity.
  - intros raw s1 H Hlen. answered H. split; [reflexivity | split].
    + rewrite EncodeToString_length, Hlen. reflexivity.
    + apply EncodeToString_alphabet.
Qed.

Lemma generateRefreshToken_shape_witness :
  run Double.serve generateRefreshToken Fixture.empty =
    (("KioqKioqKioqKioqKioqKioqKioqKioqKioqKioqKio=", None), Fixture.empty,
     [Ev (rand_Read 32) (repeat x2a 32, None)]) /\
  String.length (fst (result Double.serve generateRefreshToken Fixture.empty)) = 44%nat /\
  forallb (fun c => urlSafe c || Ascii.eqb c base64.StdPadding)
    (list_ascii_of_string (fst (result Double.serve generateRefreshToken Fixture.empty))) =
    true.
Proof.
  apply (proj2 (generateRefreshToken_shape Double.serve Fixture.empty)
           (repeat x2a 32) Fixture.empty); by_evaluation.
Defined.

(** X2: two draws of the random source that deliver different bytes give
    different refresh tokens. *)
Theorem generateRefreshToken_distinct {S : Type} (h : handler S) (s s' s1 s1' : S)
    (raw raw' : bytes) :
  h _ (rand_Read 32) s = ((raw, None), s1) ->
  h _ (rand_Read 32) s' = ((raw', None), s1') ->
  raw <> raw' ->
  fst (result h generateRefreshToken s) <> fst (result h generateRefreshToken s').
Proof.
  intros H H' Hne. unfold result, generateRefreshToken.
  simpl. rewrite H, H'. simpl. intros Heq. apply Hne.
  apply EncodeToString_injective. exact Heq.
Qed.

Lemma generateRefreshToken_distinct_witness :
  fst (result Dice.serve generateRefreshToken (1%N, Fixture.empty)) <>
  fst (result Dice.serve generateRefreshToken (2%N, Fixture.empty)).
Proof.
  apply (generateRefreshToken_distinct Dice.serve (1%N, Fixture.empty)
           (2%N, Fixture.empty) (2%N, Fixture.empty) (3%N, Fixture.empty)
           (repeat x01 32) (repeat x02 32)).
  - by_evaluation.
  - by_evaluation.
  - discriminate.
Defined.

(** ** Login, the successful path *)

(** X3: a Login that returns a nil error made exactly seven calls: the account
    lookup by email, the password check against that account's hash, the
    app lookup, the signing, the drawing of 32 random bytes, a clock
    reading, and one SaveSession under the id of the account found, with
    the two tokens it returns and the expiry clock + refreshTokenTTL.  The
    access token is the signer's, the refresh token the encoding of the
    random bytes. *)
Theorem Login_success_calls {S : Type} (h : handler S) (s s' : S) (a : Auth)
    (email password userAgent ipAddress : string) (appID : Z)
    (token refreshToken : string) (t : list event) :
  run h (Login a email password userAgent ipAddress appID) s =
    ((token, refreshToken, None), s', t) ->
  exists user app raw now sessionID,
    t = [Ev (AccountByEmail email) (user, None);
         Ev (bcrypt_CompareHashAndPassword (models.PassHash user)
               (bytes_of_string password)) None;
         Ev (App appID) (app, None);
         Ev (jwt_NewToken user app (tokenTTL a)) (token, None);
         Ev (rand_Read 32) (raw, None);
         Ev time_Now now;
         Ev (SaveSession (models.ID user) userAgent ipAddress token refreshToken
               (time.Add now (refreshTokenTTL a))) (sessionID, None)] /\
    refreshToken = base64.EncodeToString raw.
Proof.
  unfold Login, generateRefreshToken. simpl.
  repeat next_answer h;
    try (destruct (errors.Is_chain _ _));
    simpl; intros H; inversion H; subst.
  do 5 eexists. split; reflexivity.
Qed.

Lemma Login_success_calls_witness :
  result Double.serve (Login Fixture.auth "a@x.com" "pw123" "ua" "10.0.0.9" 1)
    (Fixture.world 0 []) =
    ("jwt:a@x.com", "KioqKioqKioqKioqKioqKioqKioqKioqKioqKioqKio=", None) /\
  exists user app raw now sessionID,
    trace Double.serve (Login Fixture.auth "a@x.com" "pw123" "ua" "10.0.0.9" 1)
      (Fixture.world 0 []) =
      [Ev (AccountByEmail "a@x.com") (user, None);
       Ev (bcrypt_CompareHashAndPassword (models.PassHash user)
             (bytes_of_string "pw123")) None;
       Ev (App 1) (app, None);
       Ev (jwt_NewToken user app (tokenTTL Fixture.auth)) ("jwt:a@x.com", None);
       Ev (rand_Read 32) (raw, None);
       Ev time_Now now;
       Ev (SaveSession (models.ID user) "ua" "10.0.0.9" "jwt:a@x.com"
             "KioqKioqKioqKioqKioqKioqKioqKioqKioqKioqKio="
             (time.Add now (refreshTokenTTL Fixture.auth))) (sessionID, None)] /\
    "KioqKioqKioqKioqKioqKioqKioqKioqKioqKioqKio=" = base64.EncodeToString raw.
Proof.
  split; [by_evaluation |].
  apply (Login_success_calls Double.serve (Fixture.world 0 [])
           (snd (fst (run Double.serve
                        (Login Fixture.auth "a@x.com" "pw123" "ua" "10.0.0.9" 1)
                        (Fixture.world 0 []))))).
  by_evaluation.
Defined.

(** X4: the session store accepted a SaveSession during a Login exactly when
    the Login returns a nil error: a Login that fails leaves no session
    behind, and one that succeeds has persisted one. *)
Theorem Login_session_iff_success {S : Type} (h : handler S) (s : S) (a : Auth)
    (email password userAgent ipAddress : string) (appID : Z) :
  existsb savedSession (trace h (Login a email password userAgent ipAddress appID) s) =
  succeeded (snd (result h (Login a email password userAgent ipAddress appID) s)).
Proof.
  unfold trace, result, Login, generateRefreshToken. simpl.
  repeat next_answer h; try (destruct (errors.Is_chain _ _)); reflexivity.
Qed.

(** ** RefreshAccountSession, beyond the claims *)

(** X7: a refresh either returns a nil error or returns two empty strings and
    the expiry 0. *)
Theorem RefreshAccountSession_failure_values {S : Type} (h : handler S) (s : S) (a : Auth)
    (accountID : Z) (refreshToken userAgent ipAddress : string) :
  snd (result h (RefreshAccountSession a accountID refreshToken userAgent ipAddress) s) =
    None \/
  fst (result h (RefreshAccountSession a accountID refreshToken userAgent ipAddress) s) =
    ("", "", 0).
Proof.
  unfold result, RefreshAccountSession, generateRefreshToken. simpl.
  repeat first
    [ next_answer h
    | match goal with
      | |- context [time.Before ?x ?y] => destruct (time.Before x y); simpl
      end ];
    first [ left; reflexivity | right; reflexivity ].
Qed.

(** X8: the session store accepted a SaveSession during a refresh exactly when
    the refresh returns a nil error. *)
Theorem RefreshAccountSession_session_iff_success {S : Type} (h : handler S) (s : S)
    (a : Auth) (accountID : Z) (refreshToken userAgent ipAddress : string) :
  existsb savedSession
    (trace h (RefreshAccountSession a accountID refreshToken userAgent ipAddress) s) =
  succeeded
    (snd (result h (RefreshAccountSession a accountID refreshToken userAgent ipAddress) s)).
Proof.
  unfold trace, result, RefreshAccountSession, generateRefreshToken. simpl.
  repeat first
    [ next_answer h
    | match goal with
      | |- context [time.Before ?x ?y] => destruct (time.Before x y); simpl
      end ];
    reflexivity.
Qed.

(** X9: a refresh goes through for any session the presented refresh token
    finds, provided its refreshExpiresAt is not before the clock reading
    (the deadline instant itself still passes): no field of the session
    other than refreshExpiresAt is looked at, in particular its AccountID
    is not compared with the accountID argument, and the new session is
    saved under the argument. *)
Theorem RefreshAccountSession_any_owner {S : Type} (h : handler S)
    (s s1 s2 s3 s4 s5 s6 s7 s8 : S) (a : Auth) (accountID : Z)
    (refreshToken userAgent ipAddress : string)
    (account : models.Account) (app : models.App) (session : models.Session)
    (now1 now2 : Time) (newToken : string) (raw : bytes) (sessionID : string) :
  h _ (AccountById accountID) s = ((account, None), s1) ->
  h _ (App (models.AppId account)) s1 = ((app, None), s2) ->
  h _ (SessionByRefreshToken refreshToken) s2 = ((session, None), s3) ->
  h _ time_Now s3 = (now1, s4) ->
  unixNano now1 <= unixNano (models.RefreshExpiresAt session) ->
  h _ (jwt_NewToken account app (tokenTTL a)) s4 = ((newToken, None), s5) ->
  h _ (rand_Read 32) s5 = ((raw, None), s6) ->
  h _ time_Now s6 = (now2, s7) ->
  h _ (SaveSession accountID userAgent ipAddress newToken (base64.EncodeToString raw)
         (time.Add now2 (refreshTokenTTL a))) s7 = ((sessionID, None), s8) ->
  result h (RefreshAccountSession a accountID refreshToken userAgent ipAddress) s =
    (newToken, base64.EncodeToString raw,
     time.Unix (time.Add now2 (refreshTokenTTL a)), None).
Proof.
  intros Hacc Happ Hses Hnow1 Hle Htok Hraw Hnow2 Hsave.
  unfold result, RefreshAccountSession, generateRefreshToken.
  answered Hacc. answered Happ. answered Hses. answered Hnow1.
  unfold time.Before. apply Z.ltb_ge in Hle. rewrite Hle.
  answered Htok. answered Hraw. answered Hnow2. answered Hsave. reflexivity.
Qed.

(** Account 1 presents the refresh token of a session that belongs to
    account 2 and is given a fresh pair. *)
Lemma RefreshAccountSession_any_owner_witness :
  models.AccountID Scenario.bobs = 2 /\
  result Double.serve (RefreshAccountSession Fixture.auth 1 "refB" "ua" "10.0.0.9")
    Scenario.shared =
    ("jwt:a@x.com", base64.EncodeToString (repeat x2a 32),
     time.Unix (time.Add (mkTime 1) (refreshTokenTTL Fixture.auth)), None).
Proof.
  split; [reflexivity |].
  pose (w1 := snd (Double.serve _ time_Now Scenario.shared)).
  pose (w2 := snd (Double.serve _ time_Now w1)).
  pose (w3 := snd (Double.serve _
                     (SaveSession 1 "ua" "10.0.0.9" "jwt:a@x.com"
                        (base64.EncodeToString (repeat x2a 32))
                        (time.Add (mkTime 1) (refreshTokenTTL Fixture.auth))) w2)).
  apply (RefreshAccountSession_any_owner Double.serve
           Scenario.shared Scenario.shared Scenario.shared Scenario.shared
           w1 w1 w1 w2 w3 Fixture.auth 1 "refB" "ua" "10.0.0.9"
           Fixture.alice Fixture.app1 Scenario.bobs (mkTime 0) (mkTime 1)
           "jwt:a@x.com" (repeat x2a 32)
           (fst (fst (Double.serve _
                        (SaveSession 1 "ua" "10.0.0.9" "jwt:a@x.com"
                           (base64.EncodeToString (repeat x2a 32))
                           (time.Add (mkTime 1) (refreshTokenTTL Fixture.auth))) w2))));
    try by_evaluation.
  vm_compute. discriminate.
Defined.

(** ** ChangePassword, RegisterNewAccount, Logout, RevokeAccountSession *)

(** X11: the boolean ChangePassword returns tells whether the account store
    accepted an UpdatePassword during the call: false means no password
    was changed, true means one was. *)
Theorem ChangePassword_update_iff_success {S : Type} (h : handler S) (s : S) (a : Auth)
    (accountID : Z) (oldPassword newPassword : string) :
  existsb updatedPassword (trace h (ChangePassword a accountID oldPassword newPassword) s) =
  fst (result h (ChangePassword a accountID oldPassword newPassword) s).
Proof.
  unfold trace, result, ChangePassword. simpl.
  repeat next_answer h; reflexivity.
Qed.

(** X12: a registration returns a nil error exactly when the account store
    accepted its SaveAccount, and returns the id 0 whenever it fails; when
    the hashing fails, the hashing is the only call made and no SaveAccount
    is issued. *)
Theorem RegisterNewAccount_failure {S : Type} (h : handler S) (s : S) (a : Auth)
    (email pass : string) (role : models.AccountRole) (appId : Z) :
  existsb savedAccount (trace h (RegisterNewAccount a email pass role appId) s) =
    succeeded (snd (result h (RegisterNewAccount a email pass role appId) s)) /\
  (snd (result h (RegisterNewAccount a email pass role appId) s) = None \/
   fst (result h (RegisterNewAccount a email pass role appId) s) = 0) /\
  (forall passHash e s1,
      h _ (bcrypt_GenerateFromPassword (bytes_of_string pass) bcrypt.DefaultCost) s =
        ((passHash, Some e), s1) ->
      run h (RegisterNewAccount a email pass role appId) s =
        ((0, Some (fmt_Errorf "Auth.RegisterNewAccount" (Some e))), s1,
         [Ev (bcrypt_GenerateFromPassword (bytes_of_string pass) bcrypt.DefaultCost)
            (passHash, Some e)])).
Proof.
  unfold trace, result, RegisterNewAccount. split; [| split].
  - simpl. repeat next_answer h; reflexivity.
  - simpl. repeat next_answer h; first [left; reflexivity | right; reflexivity].
  - intros passHash e s1 H. answered H. reflexivity.
Qed.

Lemma RegisterNewAccount_failure_witness :
  run Double.serve
    (RegisterNewAccount Fixture.auth "c@x.com" Fixture.passphrase models.STANDARD 1)
    Fixture.empty =
    ((0, Some (fmt_Errorf "Auth.RegisterNewAccount" (Some Double.ErrPasswordTooLong))),
     Fixture.empty,
     [Ev (bcrypt_GenerateFromPassword (bytes_of_string Fixture.passphrase)
            bcrypt.DefaultCost) ([], Some Double.ErrPasswordTooLong)]).
Proof.
  apply (proj2 (proj2 (RegisterNewAccount_failure Double.serve Fixture.empty Fixture.auth
                         "c@x.com" Fixture.passphrase models.STANDARD 1))).
  by_evaluation.
Defined.

(** X13: logout when there is nothing to revoke: if the listing fails, Logout
    fails with the listing's error wrapped and asks for no revocation; if
    the listing is empty, Logout succeeds, again with the listing as its
    only call. *)
Theorem Logout_nothing_to_revoke {S : Type} (h : handler S) (s : S) (a : Auth)
    (accountID : Z) :
  (forall sessions e s1,
      h _ (Sessions accountID) s = ((sessions, Some e), s1) ->
      run h (Logout a accountID) s =
        ((false, Some (fmt_Errorf "Auth.Logout" (Some e))), s1,
         [Ev (Sessions accountID) (sessions, Some e)])) /\
  (forall s1,
      h _ (Sessions accountID) s = (([], None), s1) ->
      run h (Logout a accountID) s =
        ((true, None), s1, [Ev (Sessions accountID) ([], None)])).
Proof.
  unfold Logout. split.
  - intros sessions e s1 H. answered H. reflexivity.
  - intros s1 H. answered H. reflexivity.
Qed.

(** Account 7 does not exist; its Logout succeeds all the same, since only
    the session store is asked. *)
Lemma Logout_nothing_to_revoke_witness :
  run Double.serve (Logout Fixture.auth 7) (Fixture.world 0 []) =
    ((true, None), Fixture.world 0 [], [Ev (Sessions 7) ([], None)]).
Proof.
  apply (proj2 (Logout_nothing_to_revoke Double.serve (Fixture.world 0 []) Fixture.auth 7)).
  by_evaluation.
Defined.

Lemma Logout_range_flag {S : Type} (h : handler S) (op : string)
    (sessions : list models.Session) (s : S) :
  fst (result h (Logout_range op sessions) s) =
    succeeded (snd (result h (Logout_range op sessions) s)) /\
  namedBy op (snd (result h (Logout_range op sessions) s)) = true.
Proof.
  unfold result. revert s. induction sessions as [| x rest IH]; intros s; simpl.
  - split; reflexivity.
  - destruct (h _ (SessionSaver_RevokeSession (models.Token x)) s) as [[e |] s1]; simpl.
    + rewrite String.eqb_refl. split; reflexivity.
    + specialize (IH s1).
      destruct (run h (Logout_range op rest) s1) as [[r s2] t]. exact IH.
Qed.

(** X14: for the three operations that return a boolean beside the error, the
    boolean is true exactly when the error is nil. *)
Theorem success_flag_agrees {S : Type} (h : handler S) (s : S) (a : Auth)
    (accountID : Z) (oldPassword newPassword token : string) :
  fst (result h (Logout a accountID) s) = succeeded (snd (result h (Logout a accountID) s)) /\
  fst (result h (ChangePassword a accountID oldPassword newPassword) s) =
    succeeded (snd (result h (ChangePassword a accountID oldPassword newPassword) s)) /\
  fst (result h (RevokeAccountSession a token) s) =
    succeeded (snd (result h (RevokeAccountSession a token) s)).
Proof.
  split; [| split].
  - unfold result, Logout. simpl. next_answer h; [reflexivity |].
    match goal with
    | |- context [run h (Logout_range ?op ?l) ?s0] =>
        pose proof (proj1 (Logout_range_flag h op l s0)) as Hloop;
        unfold result in Hloop;
        destruct (run h (Logout_range op l) s0) as [[r s2] t]
    end.
    exact Hloop.
  - unfold result, ChangePassword. simpl. repeat next_answer h; reflexivity.
  - unfold result, RevokeAccountSession. simpl. repeat next_answer h; reflexivity.
Qed.

(** ** What every operation does with its errors *)

Lemma prefix_append (p rest : string) : String.prefix p (String.append p rest) = true.
Proof.
  induction p as [| c p IH]; simpl.
  - destruct rest; reflexivity.
  - destruct (ascii_dec c c) as [_ | Hne]; [exact IH | contradiction].
Qed.

Lemma append_assoc (x y z : string) :
  String.append (String.append x y) z = String.append x (String.append y z).
Proof.
  induction x as [| c x IH]; simpl; [reflexivity | rewrite IH; reflexivity].
Qed.

(** The message of an error built under the name [op] starts with the name
    and a colon. *)
Lemma namedBy_message (op : string) (e : error) :
  namedBy op (Some e) = true ->
  String.prefix (String.append op ": ") (Error e) = true.
Proof.
  destruct e as [ptr text | op' [inner |]]; cbn [namedBy Error]; intros H;
    try discriminate H; apply String.eqb_eq in H; subst op'.
  - rewrite <- append_assoc. apply prefix_append.
  - change ": %!w(<nil>)"%string with (String.append ": " "%!w(<nil>)").
    rewrite <- append_assoc. apply prefix_append.
Qed.

(** X15: every error an operation of the engine returns was built by
    [fmt.Errorf] under that operation's own name, whichever collaborator
    failed and whatever it answered. *)
Theorem errors_name_the_operation {S : Type} (h : handler S) (s : S) (a : Auth)
    (email password userAgent ipAddress oldPassword newPassword token refreshToken : string)
    (role : models.AccountRole) (status : models.AccountStatus) (appID accountID : Z) :
  namedBy "Auth.RegisterNewAccount"
    (snd (result h (RegisterNewAccount a email password role appID) s)) = true /\
  namedBy "Auth.Login"
    (snd (result h (Login a email password userAgent ipAddress appID) s)) = true /\
  namedBy "Auth.Logout" (snd (result h (Logout a accountID) s)) = true /\
  namedBy "Auth.ChangePassword"
    (snd (result h (ChangePassword a accountID oldPassword newPassword) s)) = true /\
  namedBy "Auth.ChangeStatus"
    (snd (result h (ChangeStatus a accountID status) s)) = true /\
  namedBy "Auth.GetActiveAccountSessions"
    (snd (result h (GetActiveAccountSessions a accountID) s)) = true /\
  namedBy "Auth.RefreshAccountSession"
    (snd (result h (RefreshAccountSession a accountID refreshToken userAgent ipAddress) s)) =
    true /\
  namedBy "Auth.ValidateAccountSession"
    (snd (result h (ValidateAccountSession a token) s)) = true /\
  namedBy "Auth.RevokeAccountSession"
    (snd (result h (RevokeAccountSession a token) s)) = true.
Proof.
  unfold result.
  split; [| split; [| split; [| split; [| split; [| split; [| split; [| split]]]]]]].
  - unfold RegisterNewAccount. simpl. repeat next_answer h; reflexivity.
  - unfold Login, generateRefreshToken. simpl.
    repeat next_answer h; try (destruct (errors.Is_chain _ _)); reflexivity.
  - unfold Logout. simpl. next_answer h; [reflexivity |].
    match goal with
    | |- context [run h (Logout_range ?op ?l) ?s0] =>
        pose proof (proj2 (Logout_range_flag h op l s0)) as Hloop;
        unfold result in Hloop;
        destruct (run h (Logout_range op l) s0) as [[r s2] t]
    end.
    exact Hloop.
  - unfold ChangePassword. simpl. repeat next_answer h; reflexivity.
  - unfold ChangeStatus. simpl. repeat next_answer h; reflexivity.
  - unfold GetActiveAccountSessions. simpl. repeat next_answer h; reflexivity.
  - unfold RefreshAccountSession, generateRefreshToken. simpl.
    repeat first
      [ next_answer h
      | match goal with
        | |- context [time.Before ?x ?y] => destruct (time.Before x y); simpl
        end ];
      reflexivity.
  - unfold ValidateAccountSession. simpl.
    repeat first
      [ next_answer h
      | match goal with
        | |- context [time.Before ?x ?y] => destruct (time.Before x y); simpl
        end ];
      reflexivity.
  - unfold RevokeAccountSession. simpl. repeat next_answer h; reflexivity.
Qed.

(** X16: ValidateAccountSession and GetActiveAccountSessions only read: no call
    to a writing method of a store occurs in any of their runs. *)
Theorem lookups_write_nothing {S : Type} (h : handler S) (s : S) (a : Auth)
    (token : string) (accountID : Z) :
  existsb isStoreWrite (trace h (ValidateAccountSession a token) s) = false /\
  existsb isStoreWrite (trace h (GetActiveAccountSessions a accountID) s) = false.
Proof.
  unfold trace. split.
  - unfold ValidateAccountSession. simpl.
    repeat first
      [ next_answer h
      | match goal with
        | |- context [time.Before ?x ?y] => destruct (time.Before x y); simpl
        end ];
      reflexivity.
  - unfold GetActiveAccountSessions. simpl. repeat next_answer h; reflexivity.
Qed.

(** ** config.MustLoad and fetchConfigPath *)

(** Case analysis on the answer of the next call of a run of a [config]
    program against the system [h]. *)
Ltac next_reply h :=
  match goal with
  | |- context [h ?X ?c ?s] =>
      let x := fresh "x" in
      let s' := fresh "s" in
      destruct (h X c s) as [x s'] eqn:?;
      lazymatch type of x with
      | (_ * option error)%type => destruct x as [? [? |]]
      | bool => destruct x
      | _ => idtac
      end;
      simpl
  end.

(** X17: the flag has priority: when [-domain] carries a non-empty path, the
    environment is never read, whatever happens afterwards. *)
Theorem MustLoad_flag_first {S : Type} (h : config.system S) (s s1 : S) (path : string) :
  h _ config.flag_Parse s = (path, s1) ->
  path <> "" ->
  existsb config.isGetenv (snd (config.exec h config.MustLoad s)) = false.
Proof.
  intros H Hpath. unfold config.MustLoad, config.fetchConfigPath.
  simpl. rewrite H.
  destruct (String.eqb path "") eqn:E; [apply String.eqb_eq in E; contradiction |].
  simpl. rewrite E. simpl.
  repeat next_reply h; reflexivity.
Qed.

(** The flag names a file that is there while CONFIG_PATH names another:
    the flag's file is the one loaded. *)
Lemma MustLoad_flag_first_witness :
  existsb config.isGetenv
    (snd (config.exec config.machine config.MustLoad
            (config.mkMachine "./config/local.yaml" "/etc/sso/prod.yaml"
               [("./config/local.yaml", (config.local, None))]))) = false.
Proof.
  apply (MustLoad_flag_first config.machine
           (config.mkMachine "./config/local.yaml" "/etc/sso/prod.yaml"
              [("./config/local.yaml", (config.local, None))])
           (config.mkMachine "./config/local.yaml" "/etc/sso/prod.yaml"
              [("./config/local.yaml", (config.local, None))])
           "./config/local.yaml").
  - by_evaluation.
  - discriminate.
Defined.

(** Running [andThen p f]: the run of [p], and when it returned, the run
    of [f] on what it returned. *)
Lemma exec_andThen {S A B : Type} (h : config.system S) (p : config.proc A)
    (f : A -> config.proc B) (s : S) :
  config.exec h (config.andThen p f) s =
  match config.exec h p s with
  | (config.Returned x, s1, t1) =>
      let '(r, s2, t2) := config.exec h (f x) s1 in (r, s2, (t1 ++ t2)%list)
  | (config.Panicked v, s1, t1) => (config.Panicked v, s1, t1)
  end.
Proof.
  revert s. induction p as [x | v | X c k IH]; intros s; simpl.
  - destruct (config.exec h (f x) s) as [[r s2] t2]. reflexivity.
  - reflexivity.
  - destruct (h X c s) as [y s1]. rewrite IH.
    destruct (config.exec h (k y) s1) as [[[x | v] s2] t1]; [| reflexivity].
    destruct (config.exec h (f x) s2) as [[r s3] t2]. reflexivity.
Qed.

(** X18: how the path is chosen and the three ways MustLoad panics.
    fetchConfigPath returns the flag's value when it is not empty, with
    the flag parse as its only call, and the value of CONFIG_PATH
    otherwise; it never touches the file system.  Whichever of the two
    chose the path: when the path is empty, MustLoad panics with
    "domain path is empty" and makes no further call; when [os.Stat]
    reports that the file does not exist, it panics naming the path and
    the file is never read; when the read fails, it panics with the
    reader's message behind the words "domain path is empty: ". *)
Theorem MustLoad_panics {S : Type} (h : config.system S) (s : S) :
  (forall path s1,
      h _ config.flag_Parse s = (path, s1) ->
      path <> "" ->
      config.exec h config.fetchConfigPath s =
        (config.Returned path, s1, [config.Asked config.flag_Parse path])) /\
  (forall s1 env s2,
      h _ config.flag_Parse s = ("", s1) ->
      h _ (config.os_Getenv "CONFIG_PATH") s1 = (env, s2) ->
      config.exec h config.fetchConfigPath s =
        (config.Returned env, s2,
         [config.Asked config.flag_Parse "";
          config.Asked (config.os_Getenv "CONFIG_PATH") env])) /\
  (forall s1 chosen,
      config.exec h config.fetchConfigPath s = (config.Returned "", s1, chosen) ->
      config.exec h config.MustLoad s =
        (config.Panicked "domain path is empty", s1, chosen)) /\
  (forall path s1 chosen s2,
      config.exec h config.fetchConfigPath s = (config.Returned path, s1, chosen) ->
      path <> "" ->
      h _ (config.os_Stat path) s1 = (true, s2) ->
      config.exec h config.MustLoad s =
        (config.Panicked (String.append "domain file does not exist: " path), s2,
         (chosen ++ [config.Asked (config.os_Stat path) true])%list)) /\
  (forall path s1 chosen s2 cfg e s3,
      config.exec h config.fetchConfigPath s = (config.Returned path, s1, chosen) ->
      path <> "" ->
      h _ (config.os_Stat path) s1 = (false, s2) ->
      h _ (config.cleanenv_ReadConfig path) s2 = ((cfg, Some e), s3) ->
      config.exec h config.MustLoad s =
        (config.Panicked (String.append "domain path is empty: " (Error e)), s3,
         (chosen ++ [config.Asked (config.os_Stat path) false;
                     config.Asked (config.cleanenv_ReadConfig path) (cfg, Some e)])%list)).
Proof.
  split; [| split; [| split; [| split]]].
  - intros path s1 H Hpath. unfold config.fetchConfigPath. simpl. rewrite H.
    destruct (String.eqb path "") eqn:E; [apply String.eqb_eq in E; contradiction |].
    reflexivity.
  - intros s1 env s2 H Henv. unfold config.fetchConfigPath. simpl. rewrite H.
    simpl. rewrite Henv. reflexivity.
  - intros s1 chosen Hpath. unfold config.MustLoad.
    rewrite exec_andThen, Hpath. simpl. rewrite app_nil_r. reflexivity.
  - intros path s1 chosen s2 Hchosen Hpath Hstat. unfold config.MustLoad.
    rewrite exec_andThen, Hchosen.
    destruct (String.eqb path "") eqn:E; [apply String.eqb_eq in E; contradiction |].
    simpl. rewrite Hstat. reflexivity.
  - intros path s1 chosen s2 cfg e s3 Hchosen Hpath Hstat Hread. unfold config.MustLoad.
    rewrite exec_andThen, Hchosen.
    destruct (String.eqb path "") eqn:E; [apply String.eqb_eq in E; contradiction |].
    simpl. rewrite Hstat. simpl. rewrite Hread. reflexivity.
Qed.

(** Nothing set; a missing file named by CONFIG_PATH; an unreadable file
    named by CONFIG_PATH; the same unreadable file named by the flag. *)
Lemma MustLoad_panics_witness :
  config.exec config.machine config.fetchConfigPath
    (config.mkMachine "./flag.yaml" "./env.yaml" []) =
    (config.Returned "./flag.yaml", config.mkMachine "./flag.yaml" "./env.yaml" [],
     [config.Asked config.flag_Parse "./flag.yaml"]) /\
  config.exec config.machine config.fetchConfigPath
    (config.mkMachine "" "./env.yaml" []) =
    (config.Returned "./env.yaml", config.mkMachine "" "./env.yaml" [],
     [config.Asked config.flag_Parse "";
      config.Asked (config.os_Getenv "CONFIG_PATH") "./env.yaml"]) /\
  config.exec config.machine config.MustLoad (config.mkMachine "" "" []) =
    (config.Panicked "domain path is empty", config.mkMachine "" "" [],
     [config.Asked config.flag_Parse "";
      config.Asked (config.os_Getenv "CONFIG_PATH") ""]) /\
  config.exec config.machine config.MustLoad (config.mkMachine "" "./gone.yaml" []) =
    (config.Panicked "domain file does not exist: ./gone.yaml",
     config.mkMachine "" "./gone.yaml" [],
     ([config.Asked config.flag_Parse "";
       config.Asked (config.os_Getenv "CONFIG_PATH") "./gone.yaml"] ++
      [config.Asked (config.os_Stat "./gone.yaml") true])%list) /\
  config.exec config.machine config.MustLoad
    (config.mkMachine "" "./bad.yaml"
       [("./bad.yaml", (config.noConfig, Some config.ErrMalformed))]) =
    (config.Panicked
       (String.append "domain path is empty: " (Error config.ErrMalformed)),
     config.mkMachine "" "./bad.yaml"
       [("./bad.yaml", (config.noConfig, Some config.ErrMalformed))],
     ([config.Asked config.flag_Parse "";
       config.Asked (config.os_Getenv "CONFIG_PATH") "./bad.yaml"] ++
      [config.Asked (config.os_Stat "./bad.yaml") false;
       config.Asked (config.cleanenv_ReadConfig "./bad.yaml")
         (config.noConfig, Some config.ErrMalformed)])%list) /\
  config.exec config.machine config.MustLoad
    (config.mkMachine "./bad.yaml" ""
       [("./bad.yaml", (config.noConfig, Some config.ErrMalformed))]) =
    (config.Panicked
       (String.append "domain path is empty: " (Error config.ErrMalformed)),
     config.mkMachine "./bad.yaml" ""
       [("./bad.yaml", (config.noConfig, Some config.ErrMalformed))],
     ([config.Asked config.flag_Parse "./bad.yaml"] ++
      [config.Asked (config.os_Stat "./bad.yaml") false;
       config.Asked (config.cleanenv_ReadConfig "./bad.yaml")
         (config.noConfig, Some config.ErrMalformed)])%list).
Proof.
  pose (bad := [("./bad.yaml", (config.noConfig, Some config.ErrMalformed))]).
  split; [| split; [| split; [| split; [| split]]]].
  - apply (proj1 (MustLoad_panics config.machine
                    (config.mkMachine "./flag.yaml" "./env.yaml" [])));
      first [by_evaluation | discriminate].
  - apply (proj1 (proj2 (MustLoad_panics config.machine
                           (config.mkMachine "" "./env.yaml" [])))
             (config.mkMachine "" "./env.yaml" []));
      by_evaluation.
  - apply (proj1 (proj2 (proj2 (MustLoad_panics config.machine
                                  (config.mkMachine "" "" [])))));
      by_evaluation.
  - apply (proj1 (proj2 (proj2 (proj2 (MustLoad_panics config.machine
                                         (config.mkMachine "" "./gone.yaml" [])))))
             "./gone.yaml" (config.mkMachine "" "./gone.yaml" []));
      first [by_evaluation | discriminate].
  - apply (proj2 (proj2 (proj2 (proj2 (MustLoad_panics config.machine
                                         (config.mkMachine "" "./bad.yaml" bad)))))
             "./bad.yaml" (config.mkMachine "" "./bad.yaml" bad) _
             (config.mkMachine "" "./bad.yaml" bad));
      first [by_evaluation | discriminate].
  - apply (proj2 (proj2 (proj2 (proj2 (MustLoad_panics config.machine
                                         (config.mkMachine "./bad.yaml" "" bad)))))
             "./bad.yaml" (config.mkMachine "./bad.yaml" "" bad) _
             (config.mkMachine "./bad.yaml" "" bad));
      first [by_evaluation | discriminate].
Defined.

(** X19: MustLoad returns a configuration only as the last step of one path: a
    non-empty path was chosen without touching the file system, [os.Stat]
    on it did not report a missing file, and the read of that same path
    succeeded and gave the configuration returned. *)
Theorem MustLoad_returns_what_it_read {S : Type} (h : config.system S) (s s' : S)
    (cfg : config.Config) (t : list config.asked) :
  config.exec h config.MustLoad s = (config.Returned cfg, s', t) ->
  exists path before,
    path <> "" /\
    existsb config.isFileAccess before = false /\
    t = (before ++ [config.Asked (config.os_Stat path) false;
                    config.Asked (config.cleanenv_ReadConfig path) (cfg, None)])%list.
Proof.
  unfold config.MustLoad, config.fetchConfigPath. simpl.
  destruct (h _ config.flag_Parse s) as [path s1] eqn:Hflag.
  destruct (String.eqb path "") eqn:E; simpl.
  - destruct (h _ (config.os_Getenv "CONFIG_PATH") s1) as [env s2] eqn:Henv. simpl.
    destruct (String.eqb env "") eqn:E'; simpl; [intros H; discriminate H |].
    repeat next_reply h; intros H; inversion H; subst.
    exists env, [config.Asked config.flag_Parse path;
                 config.Asked (config.os_Getenv "CONFIG_PATH") env].
    split; [| split; reflexivity].
    intros ->. discriminate E'.
  - rewrite E. simpl.
    repeat next_reply h; intros H; inversion H; subst.
    exists path, [config.Asked config.flag_Parse path].
    split; [| split; reflexivity].
    intros ->. discriminate E.
Qed.

(** The flag is empty and CONFIG_PATH names the file: it is loaded. *)
Lemma MustLoad_returns_what_it_read_witness :
  fst (fst (config.exec config.machine config.MustLoad
              (config.mkMachine "" "./config/local.yaml"
                 [("./config/local.yaml", (config.local, None))]))) =
    config.Returned config.local /\
  exists path before,
    path <> "" /\
    existsb config.isFileAccess before = false /\
    snd (config.exec config.machine config.MustLoad
           (config.mkMachine "" "./config/local.yaml"
              [("./config/local.yaml", (config.local, None))])) =
      (before ++ [config.Asked (config.os_Stat path) false;
                  config.Asked (config.cleanenv_ReadConfig path) (config.local, None)])%list.
Proof.
  split; [by_evaluation |].
  apply (MustLoad_returns_what_it_read config.machine
           (config.mkMachine "" "./config/local.yaml"
              [("./config/local.yaml", (config.local, None))])
           (config.mkMachine "" "./config/local.yaml"
              [("./config/local.yaml", (config.local, None))])).
  by_evaluation.
Defined.

(** ** Login and RefreshAccountSession: where they stop, what they skip *)

(** X5: a Login that is turned away stops at once: after a failed account
    lookup nothing else is called, and after a failed password check the
    lookup and the check are the only calls, so no app is read, no token
    signed, no random bytes drawn and no session saved. *)
Theorem Login_rejected_stops {S : Type} (h : handler S) (s : S) (a : Auth)
    (email password userAgent ipAddress : string) (appID : Z) :
  (forall user e s1,
      h _ (AccountByEmail email) s = ((user, Some e), s1) ->
      trace h (Login a email password userAgent ipAddress appID) s =
        [Ev (AccountByEmail email) (user, Some e)]) /\
  (forall user s1 e s2,
      h _ (AccountByEmail email) s = ((user, None), s1) ->
      h _ (bcrypt_CompareHashAndPassword (models.PassHash user)
             (bytes_of_string password)) s1 = (Some e, s2) ->
      trace h (Login a email password userAgent ipAddress appID) s =
        [Ev (AccountByEmail email) (user, None);
         Ev (bcrypt_CompareHashAndPassword (models.PassHash user)
               (bytes_of_string password)) (Some e)]).
Proof.
  unfold trace, Login. split.
  - intros user e s1 H. answered H.
    destruct (errors.Is_chain e storage.ErrAccountNotFound); reflexivity.
  - intros user s1 e s2 H Hcmp. answered H. answered Hcmp. reflexivity.
Qed.

Lemma Login_rejected_stops_witness :
  trace Double.serve (Login Fixture.auth "nobody@x.com" "pw123" "ua" "10.0.0.9" 1)
    (Fixture.world 0 []) =
    [Ev (AccountByEmail "nobody@x.com")
       (Double.noAccount, Some storage.ErrAccountNotFound)] /\
  trace Double.serve (Login Fixture.auth "a@x.com" "guess" "ua" "10.0.0.9" 1)
    (Fixture.world 0 []) =
    [Ev (AccountByEmail "a@x.com") (Fixture.alice, None);
     Ev (bcrypt_CompareHashAndPassword (models.PassHash Fixture.alice)
           (bytes_of_string "guess")) (Some Double.ErrMismatchedHashAndPassword)].
Proof.
  split.
  - apply (proj1 (Login_rejected_stops Double.serve (Fixture.world 0 []) Fixture.auth
                    "nobody@x.com" "pw123" "ua" "10.0.0.9" 1)
             Double.noAccount storage.ErrAccountNotFound (Fixture.world 0 [])).
    by_evaluation.
  - apply (proj2 (Login_rejected_stops Double.serve (Fixture.world 0 []) Fixture.auth
                    "a@x.com" "guess" "ua" "10.0.0.9" 1)
             Fixture.alice (Fixture.world 0 []) Double.ErrMismatchedHashAndPassword
             (Fixture.world 0 []));
      by_evaluation.
Defined.

(** X6: of the account it finds, Login itself reads the hash and the id and
    hands the record to the signer; it never tests the status or the role.
    Once the password verifies, the app is found, and the signer, the
    random source and the session store answer, the Login succeeds, for an
    account of any status. *)
Theorem Login_any_status {S : Type} (h : handler S) (s s1 s2 s3 s4 s5 s6 s7 : S)
    (a : Auth) (email password userAgent ipAddress : string) (appID : Z)
    (user : models.Account) (app : models.App) (token : string) (raw : bytes)
    (now : Time) (sessionID : string) :
  h _ (AccountByEmail email) s = ((user, None), s1) ->
  h _ (bcrypt_CompareHashAndPassword (models.PassHash user)
         (bytes_of_string password)) s1 = (None, s2) ->
  h _ (App appID) s2 = ((app, None), s3) ->
  h _ (jwt_NewToken user app (tokenTTL a)) s3 = ((token, None), s4) ->
  h _ (rand_Read 32) s4 = ((raw, None), s5) ->
  h _ time_Now s5 = (now, s6) ->
  h _ (SaveSession (models.ID user) userAgent ipAddress token
         (base64.EncodeToString raw) (time.Add now (refreshTokenTTL a))) s6 =
    ((sessionID, None), s7) ->
  result h (Login a email password userAgent ipAddress appID) s =
    (token, base64.EncodeToString raw, None).
Proof.
  intros Hacc Hcmp Happ Htok Hraw Hnow Hsave.
  unfold result, Login, generateRefreshToken.
  answered Hacc. answered Hcmp. answered Happ. answered Htok.
  answered Hraw. answered Hnow. answered Hsave. reflexivity.
Qed.

(** The suspended account logs in. *)
Lemma Login_any_status_witness :
  models.Status Scenario.carol = models.SUSPENDED /\
  result Double.serve (Login Fixture.auth "c@x.com" "s3cret" "ua" "10.0.0.9" 1)
    Scenario.suspended =
    ("jwt:c@x.com", base64.EncodeToString (repeat x2a 32), None).
Proof.
  split; [reflexivity |].
  pose (w1 := snd (Double.serve _ time_Now Scenario.suspended)).
  apply (Login_any_status Double.serve
           Scenario.suspended Scenario.suspended Scenario.suspended Scenario.suspended
           Scenario.suspended Scenario.suspended w1
           (snd (Double.serve _
                   (SaveSession 3 "ua" "10.0.0.9" "jwt:c@x.com"
                      (base64.EncodeToString (repeat x2a 32))
                      (time.Add (mkTime 0) (refreshTokenTTL Fixture.auth))) w1))
           Fixture.auth "c@x.com" "s3cret" "ua" "10.0.0.9" 1
           Scenario.carol Fixture.app1 "jwt:c@x.com" (repeat x2a 32) (mkTime 0)
           (fst (fst (Double.serve _
                        (SaveSession 3 "ua" "10.0.0.9" "jwt:c@x.com"
                           (base64.EncodeToString (repeat x2a 32))
                           (time.Add (mkTime 0) (refreshTokenTTL Fixture.auth))) w1))));
    by_evaluation.
Defined.

(** X10: the three lookups of a refresh, in the order account, app, session:
    the first that fails ends the call with its error wrapped, and nothing
    is called after it; in particular an unknown refresh token is only
    reported after the account and its app were found, and no token is
    signed for it. *)
Theorem RefreshAccountSession_lookup_failures {S : Type} (h : handler S) (s : S)
    (a : Auth) (accountID : Z) (refreshToken userAgent ipAddress : string) :
  (forall account e s1,
      h _ (AccountById accountID) s = ((account, Some e), s1) ->
      run h (RefreshAccountSession a accountID refreshToken userAgent ipAddress) s =
        (("", "", 0, Some (fmt_Errorf "Auth.RefreshAccountSession" (Some e))), s1,
         [Ev (AccountById accountID) (account, Some e)])) /\
  (forall account s1 app e s2,
      h _ (AccountById accountID) s = ((account, None), s1) ->
      h _ (App (models.AppId account)) s1 = ((app, Some e), s2) ->
      run h (RefreshAccountSession a accountID refreshToken userAgent ipAddress) s =
        (("", "", 0, Some (fmt_Errorf "Auth.RefreshAccountSession" (Some e))), s2,
         [Ev (AccountById accountID) (account, None);
          Ev (App (models.AppId account)) (app, Some e)])) /\
  (forall account s1 app s2 session e s3,
      h _ (AccountById accountID) s = ((account, None), s1) ->
      h _ (App (models.AppId account)) s1 = ((app, None), s2) ->
      h _ (SessionByRefreshToken refreshToken) s2 = ((session, Some e), s3) ->
      run h (RefreshAccountSession a accountID refreshToken userAgent ipAddress) s =
        (("", "", 0, Some (fmt_Errorf "Auth.RefreshAccountSession" (Some e))), s3,
         [Ev (AccountById accountID) (account, None);
          Ev (App (models.AppId account)) (app, None);
          Ev (SessionByRefreshToken refreshToken) (session, Some e)])).
Proof.
  unfold RefreshAccountSession. split; [| split].
  - intros account e s1 H. answered H. reflexivity.
  - intros account s1 app e s2 H Happ. answered H. answered Happ. reflexivity.
  - intros account s1 app s2 session e s3 H Happ Hses.
    answered H. answered Happ. answered Hses. reflexivity.
Qed.

Lemma RefreshAccountSession_lookup_failures_witness :
  result Double.serve (RefreshAccountSession Fixture.auth 7 "ref1" "ua" "10.0.0.9")
    (Fixture.world 0 []) =
    ("", "", 0, Some (fmt_Errorf "Auth.RefreshAccountSession"
                        (Some storage.ErrAccountNotFound))) /\
  result Double.serve (RefreshAccountSession Fixture.auth 1 "forged" "ua" "10.0.0.9")
    (Fixture.world 0 []) =
    ("", "", 0, Some (fmt_Errorf "Auth.RefreshAccountSession"
                        (Some Double.ErrSessionNotFound))).
Proof.
  split.
  - unfold result.
    rewrite (proj1 (RefreshAccountSession_lookup_failures Double.serve (Fixture.world 0 [])
                      Fixture.auth 7 "ref1" "ua" "10.0.0.9")
               Double.noAccount storage.ErrAccountNotFound (Fixture.world 0 []));
      by_evaluation.
  - unfold result.
    rewrite (proj2 (proj2 (RefreshAccountSession_lookup_failures Double.serve
                             (Fixture.world 0 []) Fixture.auth 1 "forged" "ua" "10.0.0.9"))
               Fixture.alice (Fixture.world 0 []) Fixture.app1 (Fixture.world 0 [])
               Double.noSession Double.ErrSessionNotFound (Fixture.world 0 []));
      by_evaluation.
Defined.
